(** * androidtv.py: the snapshot decoder, the state resolver and the
      static-property extraction of [AndroidTV]

    A shallow embedding of [src/androidtv/androidtv.py].  Python [str]
    values are Rocq strings whose characters are the code points 0..255;
    the character classes below ([str.strip], [str.splitlines], [\w], [\d])
    are Python 3's on that range.  A Python value that may be [None] is an
    [option]; an exception is a [Raise] result. *)

From Stdlib Require Import ZArith NArith List String Ascii Bool Lia.
From Stdlib Require Import Floats.SpecFloat.
Import ListNotations.

Local Open Scope string_scope.
Local Open Scope list_scope.

(** ** Exceptions and results *)

Inductive exn : Type :=
| IndexError   (* list index out of range *)
| ValueError   (* invalid literal for int() *)
| TypeError.   (* None where a string is expected *)

Inductive result (A : Type) : Type :=
| Return (a : A)
| Raise (e : exn).

Arguments Return {A} a.
Arguments Raise {A} e.

Definition bind {A B : Type} (r : result A) (k : A -> result B) : result B :=
  match r with
  | Return a => k a
  | Raise e => Raise e
  end.

Notation "x <- r ;; k" := (bind r (fun x => k))
  (at level 61, r at next level, right associativity).

(** [l[i]] on a Python list. *)
Definition py_index {A : Type} (l : list A) (i : nat) : result A :=
  match nth_error l i with
  | Some a => Return a
  | None => Raise IndexError
  end.

(** ** Python string operations *)

Module Str.

Definition code (c : ascii) : N := N_of_ascii c.

(** Characters removed by [str.strip()] with no argument. *)
Definition is_space (c : ascii) : bool :=
  let n := code c in
  ((9 <=? n) && (n <=? 13) || (28 <=? n) && (n <=? 32)
   || (n =? 133) || (n =? 160))%N.

(** Line boundaries of [str.splitlines()]. *)
Definition is_linebreak (c : ascii) : bool :=
  let n := code c in
  ((10 <=? n) && (n <=? 13) || (28 <=? n) && (n <=? 30) || (n =? 133))%N.

(** [\d] of the [re] module on [str] patterns. *)
Definition is_digit (c : ascii) : bool :=
  let n := code c in ((48 <=? n) && (n <=? 57))%N.

(** [\w] of the [re] module on [str] patterns: alphanumeric or ["_"]. *)
Definition is_word (c : ascii) : bool :=
  let n := code c in
  (is_digit c
   || (65 <=? n) && (n <=? 90) || (97 <=? n) && (n <=? 122) || (n =? 95)
   || (n =? 170) || (n =? 178) || (n =? 179) || (n =? 181)
   || (n =? 185) || (n =? 186) || (188 <=? n) && (n <=? 190)
   || (192 <=? n) && (n <=? 214) || (216 <=? n) && (n <=? 246)
   || (248 <=? n))%N.

Definition is_empty (s : string) : bool :=
  match s with
  | EmptyString => true
  | String _ _ => false
  end.

Fixpoint lstrip (s : string) : string :=
  match s with
  | EmptyString => EmptyString
  | String c s' => if is_space c then lstrip s' else s
  end.

Fixpoint rstrip (s : string) : string :=
  match s with
  | EmptyString => EmptyString
  | String c s' =>
      let r := rstrip s' in
      if is_empty r && is_space c then EmptyString else String c r
  end.

(** [s.strip()] *)
Definition strip (s : string) : string := rstrip (lstrip s).

(** [s.splitlines()]: the text is cut at every line boundary, ["\r\n"]
    counting as one, and a boundary at the very end opens no new line. *)
Fixpoint splitlines (s : string) : list string :=
  match s with
  | EmptyString => []
  | String c s' =>
      if is_linebreak c then
        match s' with
        | String c' s'' =>
            if (code c =? 13)%N && (code c' =? 10)%N
            then EmptyString :: splitlines s''
            else EmptyString :: splitlines s'
        | EmptyString => [EmptyString]
        end
      else
        match splitlines s' with
        | [] => [String c EmptyString]
        | l :: ls => String c l :: ls
        end
  end.

(** [s.split(sep)] for a one-character separator. *)
Fixpoint split (sep : ascii) (s : string) : list string :=
  match s with
  | EmptyString => [EmptyString]
  | String c s' =>
      if Ascii.eqb c sep then EmptyString :: split sep s'
      else
        match split sep s' with
        | [] => [String c EmptyString]
        | l :: ls => String c l :: ls
        end
  end.

(** [sep.join(l)] *)
Fixpoint join (sep : string) (l : list string) : string :=
  match l with
  | [] => EmptyString
  | [x] => x
  | x :: rest => x ++ sep ++ join sep rest
  end.

(** [sub in s] *)
Fixpoint contains (sub s : string) : bool :=
  prefix sub s ||
  match s with
  | EmptyString => false
  | String _ s' => contains sub s'
  end.

(** Every character of [s] is in the class [f]. *)
Fixpoint all_chars (f : ascii -> bool) (s : string) : bool :=
  match s with
  | EmptyString => true
  | String c s' => f c && all_chars f s'
  end.

Definition digit_value (c : ascii) : Z := Z.of_N (code c) - 48.

(** Value of a run of decimal digits read left to right. *)
Fixpoint digits_value (acc : Z) (s : string) : Z :=
  match s with
  | EmptyString => acc
  | String c s' => digits_value (10 * acc + digit_value c) s'
  end.

(** The digit groups of an integer literal: one or more digits, single
    underscores allowed between digits only. *)
Fixpoint int_digits (acc : Z) (after_digit : bool) (s : string) : option Z :=
  match s with
  | EmptyString => if after_digit then Some acc else None
  | String c s' =>
      if is_digit c then int_digits (10 * acc + digit_value c) true s'
      else if (code c =? 95)%N && after_digit then
             match s' with
             | String c' _ => if is_digit c' then int_digits acc false s' else None
             | EmptyString => None
             end
           else None
  end.

(** An optional sign and the digit groups of a decimal literal. *)
Definition int_literal (s : string) : option Z :=
  match s with
  | String c s' =>
      if (code c =? 43)%N then int_digits 0 false s'
      else if (code c =? 45)%N then option_map Z.opp (int_digits 0 false s')
      else int_digits 0 false s
  | EmptyString => None
  end.

(** Number of decimal digits in [s]; a sign and underscores do not count,
    leading zeros do. *)
Fixpoint count_digits (s : string) : Z :=
  match s with
  | EmptyString => 0
  | String c s' => (if is_digit c then 1 else 0) + count_digits s'
  end.

(** The interpreter's default [sys.int_max_str_digits]. *)
Definition max_str_digits : Z := 4300.

(** [int(s)] for a string [s] that has already been stripped: an optional
    sign and a decimal literal of at most [max_str_digits] digits; [None]
    stands for [ValueError], which a malformed literal and a literal with
    more digits than that both raise. *)
Definition to_int (s : string) : option Z :=
  match int_literal s with
  | Some z => if (count_digits s <=? max_str_digits)%Z then Some z else None
  | None => None
  end.

End Str.

Definition py_int (s : string) : result Z :=
  match Str.to_int s with
  | Some z => Return z
  | None => Raise ValueError
  end.

(** ** Regular expressions

    The patterns of the module are sequences of single-character atoms, each
    taken once, under the lazy star [*?] or under the greedy [{1,}], with one
    capturing group around a quantified atom.  [match_here] is the
    backtracking matcher of [re] at a fixed start position; [findall] scans
    the start positions from left to right and collects the text of the
    group of each match, resuming after the end of the match.  Every pattern
    of the module holds a literal character, so no match is empty. *)

Module Re.

Inductive atom : Type :=
| Chr (c : ascii)   (* a literal character *)
| Dot               (* .  *)
| NonWord           (* \W *)
| Digit.            (* \d *)

Inductive item : Type :=
| One (a : atom)                       (* a          *)
| LazyStar (a : atom) (group : bool)   (* a*? or (a*?)     *)
| GreedyPlus (a : atom) (group : bool).  (* a{1,} or (a{1,}) *)

Definition pattern : Type := list item.

(** A literal text as a pattern. *)
Fixpoint lit (s : string) : pattern :=
  match s with
  | EmptyString => []
  | String c s' => One (Chr c) :: lit s'
  end.

(** [dotall] is the [re.DOTALL] flag: without it [.] refuses ["\n"]. *)
Definition atom_matches (dotall : bool) (a : atom) (c : ascii) : bool :=
  match a with
  | Chr c' => Ascii.eqb c c'
  | Dot => dotall || negb (Str.code c =? 10)%N
  | NonWord => negb (Str.is_word c)
  | Digit => Str.is_digit c
  end.

Definition snoc (s : string) (c : ascii) : string := s ++ String c EmptyString.

(** The text of the group when the quantified atom carries it, the group
    found further right otherwise. *)
Definition with_group (group : bool) (text : string)
           (r : option string * string) : option string * string :=
  if group then (Some text, snd r) else r.

Section Quantifiers.

(** What a match result is made of: the text of the group, if the part
    matched so far holds it, and the unread rest. *)
Variable rest_matches : string -> option (option string * string).
Variable accepts : ascii -> bool.
Variable group : bool.

(** [a*?]: the rest of the pattern is tried first, one more character
    is taken only when it fails. *)
Fixpoint lazy_star (s : string) (text : string) {struct s}
  : option (option string * string) :=
  match rest_matches s with
  | Some r => Some (with_group group text r)
  | None =>
      match s with
      | String c s' =>
          if accepts c then lazy_star s' (snoc text c) else None
      | EmptyString => None
      end
  end.

(** [a{1,}]: as many characters as possible are taken first, and given
    back one at a time while the rest of the pattern fails. *)
Fixpoint greedy_plus (s : string) (text : string) {struct s}
  : option (option string * string) :=
  match s with
  | String c s' =>
      if accepts c then
        match greedy_plus s' (snoc text c) with
        | Some r => Some r
        | None =>
            match rest_matches s' with
            | Some r => Some (with_group group (snoc text c) r)
            | None => None
            end
        end
      else None
  | EmptyString => None
  end.

End Quantifiers.

(** Matches the pattern at the start of [s]; returns the text of the group
    and the unread rest of [s]. *)
Fixpoint match_here (dotall : bool) (p : pattern) (s : string) {struct p}
  : option (option string * string) :=
  match p with
  | [] => Some (None, s)
  | One a :: p' =>
      match s with
      | String c s' =>
          if atom_matches dotall a c then match_here dotall p' s' else None
      | EmptyString => None
      end
  | LazyStar a group :: p' =>
      lazy_star (match_here dotall p') (atom_matches dotall a) group
                s EmptyString
  | GreedyPlus a group :: p' =>
      greedy_plus (match_here dotall p') (atom_matches dotall a) group
                  s EmptyString
  end.

Definition group_text (r : option string * string) : string :=
  match fst r with
  | Some g => g
  | None => EmptyString
  end.

(** [skip] characters of the last match are still to be stepped over. *)
Fixpoint findall_from (dotall : bool) (p : pattern) (s : string) (skip : nat)
  : list string :=
  match s with
  | EmptyString => []
  | String _ s' =>
      match skip with
      | S k => findall_from dotall p s' k
      | O =>
          match match_here dotall p s with
          | Some r =>
              group_text r
                :: findall_from dotall p s'
                     (String.length s - String.length (snd r) - 1)
          | None => findall_from dotall p s' 0
          end
      end
  end.

(** [re.findall(p, s)] and [re.findall(p, s, re.DOTALL | re.MULTILINE)]
    ([re.MULTILINE] only changes [^] and [$], which no pattern uses). *)
Definition findall (dotall : bool) (p : pattern) (s : string) : list string :=
  findall_from dotall p s 0.

End Re.

(** ** The patterns of the module *)

(** ["STREAM_MUSIC(.*?)- STREAM"] *)
Definition BLOCK_REGEX_PATTERN : Re.pattern :=
  Re.lit "STREAM_MUSIC" ++ [Re.LazyStar Re.Dot true] ++ Re.lit "- STREAM".

(** [r"Devices: (.*?)\W"] *)
Definition DEVICE_REGEX_PATTERN : Re.pattern :=
  Re.lit "Devices: " ++ [Re.LazyStar Re.Dot true; Re.One Re.NonWord].

(** [r"Muted: (.*?)\W"] *)
Definition MUTED_REGEX_PATTERN : Re.pattern :=
  Re.lit "Muted: " ++ [Re.LazyStar Re.Dot true; Re.One Re.NonWord].

(** [r"\): (\d{1,})"] *)
Definition VOLUME_REGEX_PATTERN : Re.pattern :=
  Re.lit "): " ++ [Re.GreedyPlus Re.Digit true].

(** [r".*?\[(.*?)]"] *)
Definition PROP_REGEX_PATTERN : Re.pattern :=
  [Re.LazyStar Re.Dot false; Re.One (Re.Chr "[");
   Re.LazyStar Re.Dot true; Re.One (Re.Chr "]")].

Definition WIFIMAC_PROP_REGEX_PATTERN : Re.pattern :=
  Re.lit "wifimac" ++ PROP_REGEX_PATTERN.

(** ["ether (.*?) brd"] *)
Definition WIFIMAC_REGEX_PATTERN : Re.pattern :=
  Re.lit "ether " ++ [Re.LazyStar Re.Dot true] ++ Re.lit " brd".

Definition SERIALNO_REGEX_PATTERN : Re.pattern :=
  Re.lit "serialno" ++ PROP_REGEX_PATTERN.

Definition MANUF_REGEX_PATTERN : Re.pattern :=
  Re.lit "manufacturer" ++ PROP_REGEX_PATTERN.

(** ["product.model" + PROP_REGEX_PATTERN]: the dot is the pattern [.] *)
Definition MODEL_REGEX_PATTERN : Re.pattern :=
  Re.lit "product" ++ [Re.One Re.Dot] ++ Re.lit "model" ++ PROP_REGEX_PATTERN.

Definition VERSION_REGEX_PATTERN : Re.pattern :=
  Re.lit "version" ++ [Re.One Re.Dot] ++ Re.lit "release" ++ PROP_REGEX_PATTERN.

(** ** Python floats

    A [float] is an IEEE 754 binary64 number: [spec_float] with 53 bits of
    precision, every operation rounded to nearest, ties to even. *)

Module Float.

Definition prec : Z := 53.
Definition emax : Z := 1024.

(** [float(n)] for an integer [n]: the nearest double. *)
Definition of_Z (n : Z) : spec_float := binary_normalize prec emax n 0 false.

(** [float(s)] for a string of decimal digits. *)
Definition of_digits (s : string) : spec_float := of_Z (Str.digits_value 0 s).

Definition mul : spec_float -> spec_float -> spec_float := SFmul prec emax.
Definition div : spec_float -> spec_float -> spec_float := SFdiv prec emax.

(** The double nearest to the fraction [n / d] ([0 <= n], [0 < d]), with
    sign [s]. *)
Definition of_ratio (s : bool) (n d : Z) : spec_float :=
  let '(mz, ez, lz) := SFdiv_core_binary prec emax n 0 d 0 in
  binary_round_aux prec emax s mz ez lz.

(** The integer nearest to [n / d], ties to even ([0 <= n], [0 < d]). *)
Definition nearest_even (n d : Z) : Z :=
  let q := (n / d)%Z in
  let r := (n mod d)%Z in
  match (2 * r ?= d)%Z with
  | Lt => q
  | Gt => (q + 1)%Z
  | Eq => if Z.even q then q else (q + 1)%Z
  end.

(** [round(x, 2)]: the exact value of [x] is rounded to two decimals, ties
    to even, and the decimal is read back as the nearest double; zeros,
    infinities and NaN round to themselves. *)
Definition round2 (x : spec_float) : spec_float :=
  match x with
  | S754_finite s m e =>
      let hundredths :=
        match e with
        | Zneg k => nearest_even (100 * Zpos m) (Z.pow_pos 2 k)
        | _ => (100 * Zpos m * 2 ^ e)%Z
        end in
      of_ratio s hundredths 100
  | _ => x
  end.

Definition eqb (x y : spec_float) : bool :=
  match x, y with
  | S754_zero s, S754_zero s' => Bool.eqb s s'
  | S754_infinity s, S754_infinity s' => Bool.eqb s s'
  | S754_nan, S754_nan => true
  | S754_finite s m e, S754_finite s' m' e' =>
      Bool.eqb s s' && Pos.eqb m m' && Z.eqb e e'
  | _, _ => false
  end.

End Float.

(** [round(1 / 15 * float(matches[0]), 2)] *)
Definition volume_of (raw : string) : spec_float :=
  Float.round2 (Float.mul (Float.div (Float.of_Z 1) (Float.of_Z 15))
                          (Float.of_digits raw)).

(** ** States and decoded properties *)

(** Modelled from the spec: the [constants] module is not among the sources.
    The spec gives the states as the closed enumeration Off, Idle, Playing,
    Paused; the constructors keep the names of the constants the code uses. *)
Inductive state : Type :=
| STATE_OFF
| STATE_IDLE
| STATE_PLAYING
| STATE_PAUSED.

(** Modelled from the spec: the truth value Python gives to a state constant
    in [if audio_state:].  The constants are the members of an enumeration
    (non-empty names), none of which is a false value; only [None] is. *)
Definition state_truth (s : state) : bool :=
  match s with
  | STATE_OFF | STATE_IDLE | STATE_PLAYING | STATE_PAUSED => true
  end.

(** The dictionary [{"package": pkg, "activity": activity}]; a named group
    that took no part in the match is [None]. *)
Record app_dict : Type := {
  package : option string;
  activity : option string
}.

(** The 8-tuple returned by [get_properties]; [None] is a field that is
    not set. *)
Record properties : Type := {
  screen_on : option bool;
  awake : option bool;
  wake_lock_size : option Z;
  current_app : option app_dict;
  audio_state : option state;
  device : option string;
  muted : option bool;
  volume : option spec_float
}.

(** The 5-tuple returned by [update]. *)
Record status : Type := {
  st_state : state;
  st_current_app : option string;
  st_device : option string;
  st_muted : option bool;
  st_volume : option spec_float
}.

(** The dictionary returned by [get_device_properties]. *)
Record device_properties : Type := {
  wifimac : string;
  serialno : string;
  manufacturer : string;
  model : string;
  sw_version : string
}.

Definition nl : string := String "010" EmptyString.

(** [s[i]] on a string. *)
Definition str_index (s : string) (i : nat) : result ascii :=
  match String.get i s with
  | Some c => Return c
  | None => Raise IndexError
  end.

(** [not x] for [x] a [bool] or [None]. *)
Definition py_not (x : option bool) : bool :=
  match x with
  | Some b => negb b
  | None => true
  end.

(** A string handed to [re.findall] or to [in]; [None] there is a
    [TypeError]. *)
Definition expect_str (x : option string) : result string :=
  match x with
  | Some s => Return s
  | None => Raise TypeError
  end.

Section AndroidTV.

(** [constants.REGEX_WINDOW.search(line)] with the groups [package] and
    [activity] of the match; the pattern is a constant of the missing
    [constants] module. *)
Variable REGEX_WINDOW_search : string -> option app_dict.

(** [get_properties]: [output] is what [self.adb_shell] returned for the
    composite command (the command text is built from [constants] and
    takes no part in the decoding).  The warning logged when the window
    pattern does not match is not modelled. *)
Definition get_properties (output : option string) : result properties :=
  match output with
  | None =>
      (* ADB command was unsuccessful *)
      Return (Build_properties None None None None None None None None)
  | Some output =>
      if Str.is_empty output then
        Return (Build_properties (Some false) (Some false) (Some (-1)%Z)
                                 None None None None None)
      else
        c0 <- str_index output 0 ;;
        let screen_on := Ascii.eqb c0 "1" in
        if (String.length output <? 2)%nat then
          Return (Build_properties (Some screen_on) (Some false) (Some (-1)%Z)
                                   None None None None None)
        else
          c1 <- str_index output 1 ;;
          let awake := Ascii.eqb c1 "1" in
          let lines := Str.splitlines (Str.strip output) in
          line0 <- py_index lines 0 ;;
          if (String.length line0 <? 3)%nat then
            Return (Build_properties (Some screen_on) (Some awake) (Some (-1)%Z)
                                     None None None None None)
          else
            field <- py_index (Str.split "=" line0) 1 ;;
            wake_lock_size <- py_int (Str.strip field) ;;
            if (List.length lines <? 2)%nat then
              Return (Build_properties (Some screen_on) (Some awake)
                        (Some wake_lock_size) None None None None None)
            else
              line1 <- py_index lines 1 ;;
              let current_app := REGEX_WINDOW_search line1 in
              if (List.length lines <? 3)%nat then
                Return (Build_properties (Some screen_on) (Some awake)
                          (Some wake_lock_size) current_app None None None None)
              else
                let audio_output := Str.join nl (skipn 2 lines) in
                let audio_state :=
                  if Str.contains "started" audio_output then STATE_PLAYING
                  else if Str.contains "paused" audio_output then STATE_PAUSED
                  else STATE_IDLE in
                match Re.findall true BLOCK_REGEX_PATTERN audio_output with
                | [] =>
                    Return (Build_properties (Some screen_on) (Some awake)
                              (Some wake_lock_size) current_app
                              (Some audio_state) None None None)
                | stream_block :: _ =>
                    let '(device, volume) :=
                      match Re.findall true DEVICE_REGEX_PATTERN stream_block with
                      | device :: _ =>
                          (* device + VOLUME_REGEX_PATTERN: the name is made
                             of word characters, which a pattern reads as
                             themselves *)
                          (Some device,
                           match Re.findall true
                                   (Re.lit device ++ VOLUME_REGEX_PATTERN)
                                   stream_block with
                           | raw :: _ => Some (volume_of raw)
                           | [] => None
                           end)
                      | [] => (None, None)
                      end in
                    let muted :=
                      match Re.findall true MUTED_REGEX_PATTERN stream_block with
                      | m :: _ => Some (String.eqb m "true")
                      | [] => None
                      end in
                    Return (Build_properties (Some screen_on) (Some awake)
                              (Some wake_lock_size) current_app
                              (Some audio_state) device muted volume)
                end
  end.

(** The body of [update] after the call of [get_properties]. *)
Definition update_of (p : properties) : status :=
  let current_app :=
    match current_app p with
    | Some a => package a
    | None => None
    end in
  if py_not (screen_on p) then
    Build_status STATE_OFF current_app (device p) (muted p) (volume p)
  else
    let fallback :=
      if py_not (awake p) then STATE_IDLE
      else
        match wake_lock_size p with
        | Some 1%Z => STATE_PLAYING
        | _ => STATE_PAUSED
        end in
    let state :=
      match audio_state p with
      | Some a => if state_truth a then a else fallback
      | None => fallback
      end in
    Build_status state current_app (device p) (muted p) (volume p).

Definition update (output : option string) : result status :=
  p <- get_properties output ;;
  Return (update_of p).

End AndroidTV.

(** [get_device_properties]: [properties] is what [self.adb_shell('getprop')]
    returned and [wifi_out] what [self.adb_shell('ip addr show wlan0')]
    returns when the property dump does not name the wifi MAC. *)
Definition get_device_properties (properties wifi_out : option string)
  : result device_properties :=
  properties <- expect_str properties ;;
  wifimac <-
    (if Str.contains "wifimac" properties then
       py_index (Re.findall false WIFIMAC_PROP_REGEX_PATTERN properties) 0
     else
       wifi_out <- expect_str wifi_out ;;
       py_index (Re.findall false WIFIMAC_REGEX_PATTERN wifi_out) 0) ;;
  serialno <- py_index (Re.findall false SERIALNO_REGEX_PATTERN properties) 0 ;;
  manufacturer <- py_index (Re.findall false MANUF_REGEX_PATTERN properties) 0 ;;
  model <- py_index (Re.findall false MODEL_REGEX_PATTERN properties) 0 ;;
  version <- py_index (Re.findall false VERSION_REGEX_PATTERN properties) 0 ;;
  Return (Build_device_properties wifimac serialno manufacturer model version).

(** The [volume] property of the class: [output] is what
    [self.adb_shell("dumpsys audio")] returned. *)
Module Property.

Definition volume (output : option string) : result (option spec_float) :=
  match output with
  | None => Return None
  | Some output =>
      if Str.is_empty output then Return None
      else
        stream_block <- py_index (Re.findall true BLOCK_REGEX_PATTERN output) 0 ;;
        device <- py_index (Re.findall true DEVICE_REGEX_PATTERN stream_block) 0 ;;
        volume_level <-
          py_index (Re.findall true (Re.lit device ++ VOLUME_REGEX_PATTERN)
                               stream_block) 0 ;;
        Return (Some (volume_of volume_level))
  end.

(** The [audio_state] property: [output] is what
    [self.adb_shell(CMD_AUDIO_STATE)] returned. *)
Definition audio_state (output : option string) : option state :=
  match output with
  | None => None
  | Some output =>
      if String.eqb output "1" then Some STATE_PAUSED
      else if String.eqb output "2" then Some STATE_PLAYING
      else Some STATE_IDLE
  end.

(** The [device] property. *)
Definition device (output : option string) : result (option string) :=
  match output with
  | None => Return None
  | Some output =>
      if Str.is_empty output then Return None
      else
        stream_block <- py_index (Re.findall true BLOCK_REGEX_PATTERN output) 0 ;;
        d <- py_index (Re.findall true DEVICE_REGEX_PATTERN stream_block) 0 ;;
        Return (Some d)
  end.

(** The [muted] property. *)
Definition muted (output : option string) : result (option bool) :=
  match output with
  | None => Return None
  | Some output =>
      if Str.is_empty output then Return None
      else
        stream_block <- py_index (Re.findall true BLOCK_REGEX_PATTERN output) 0 ;;
        m <- py_index (Re.findall true MUTED_REGEX_PATTERN stream_block) 0 ;;
        Return (Some (String.eqb m "true"))
  end.

End Property.

(** ** What the decoder reads

    The expressions of [get_properties] that the statements below name. *)

(** [output.strip().splitlines()] *)
Definition lines_of (output : string) : list string :=
  Str.splitlines (Str.strip output).

(** ["\n".join(lines[2:])] *)
Definition audio_output_of (output : string) : string :=
  Str.join nl (skipn 2 (lines_of output)).

(** [matches[0]] when [matches] is not empty. *)
Definition first_match (p : Re.pattern) (s : string) : option string :=
  hd_error (Re.findall true p s).

(** The state that the scan of the audio dump gives. *)
Definition scanned_state (audio_output : string) : state :=
  if Str.contains "started" audio_output then STATE_PLAYING
  else if Str.contains "paused" audio_output then STATE_PAUSED
  else STATE_IDLE.

(** The three fields read in a stream block. *)
Definition block_device (block : string) : option string :=
  first_match DEVICE_REGEX_PATTERN block.

Definition block_muted (block : string) : option bool :=
  option_map (fun m => String.eqb m "true") (first_match MUTED_REGEX_PATTERN block).

Definition block_volume (block : string) : option spec_float :=
  match block_device block with
  | Some d =>
      option_map volume_of
                 (first_match (Re.lit d ++ VOLUME_REGEX_PATTERN) block)
  | None => None
  end.

(** A window pattern that matches no line. *)
Definition no_window (line : string) : option app_dict := None.

Definition is_set {A : Type} (x : option A) : bool :=
  match x with
  | Some _ => true
  | None => false
  end.

(** Which of the eight fields are set, in the order of the tuple. *)
Definition fields_set (p : properties) : list bool :=
  [is_set (screen_on p); is_set (awake p); is_set (wake_lock_size p);
   is_set (current_app p); is_set (audio_state p); is_set (device p);
   is_set (muted p); is_set (volume p)].

(** [round(v / 15.0, 2)], the rescaling as the specification words it. *)
Definition spec_volume (v : Z) : spec_float :=
  Float.round2 (Float.div (Float.of_Z v) (Float.of_Z 15)).

(** [round(1 / 15 * float(v), 2)] and [round(v / 15.0, 2)] are the same
    double. *)
Definition rescaling_agrees (v : Z) : bool :=
  Float.eqb
    (Float.round2 (Float.mul (Float.div (Float.of_Z 1) (Float.of_Z 15))
                             (Float.of_Z v)))
    (spec_volume v).

(** A snapshot with the screen on, awake, one wake lock and no audio
    state. *)
Definition one_lock_snapshot : properties :=
  Build_properties (Some true) (Some true) (Some 1%Z) None None None None None.

(** Sample outputs of the composite command. *)

(** Screen on, awake, one wake lock, a focus line and a complete music
    block. *)
Definition full_dump : string :=
  ("11Wake Locks: size=1" ++ nl
   ++ "  mCurrentFocus=Window{a1b2c3 u0 com.app/com.app.Main}" ++ nl
   ++ "- STREAM_MUSIC:" ++ nl
   ++ "   Muted: false" ++ nl
   ++ "   Current: 2 (speaker): 8, 4 (headset): 15" ++ nl
   ++ "   Devices: speaker" ++ nl
   ++ "- STREAM_ALARM:")%string.

(** A music block with a mute flag and no device line. *)
Definition muted_only_dump : string :=
  ("11Wake Locks: size=1" ++ nl
   ++ "  mCurrentFocus=null" ++ nl
   ++ "- STREAM_MUSIC:" ++ nl
   ++ "   Muted: true" ++ nl
   ++ "- STREAM_ALARM:")%string.

(** An audio dump with no music block and no player state. *)
Definition idle_dump : string :=
  ("11Wake Locks: size=1" ++ nl
   ++ "  mCurrentFocus=null" ++ nl
   ++ "Audio routes: none")%string.

(** A music block whose volume line holds a long run of digits. *)
Definition long_volume_dump : string :=
  ("11Wake Locks: size=1" ++ nl
   ++ "  mCurrentFocus=null" ++ nl
   ++ "- STREAM_MUSIC:" ++ nl
   ++ "   Current: 2 (speaker): 914516546300266" ++ nl
   ++ "   Devices: speaker" ++ nl
   ++ "- STREAM_ALARM:")%string.

(** A property dump with no [serialno] key. *)
Definition getprop_without_serialno : string :=
  ("[ro.product.manufacturer]: [Acme]" ++ nl
   ++ "[ro.product.model]: [Box 2]" ++ nl
   ++ "[ro.build.version.release]: [9]" ++ nl
   ++ "[ro.boot.wifimacaddr]: [aa:bb:cc:dd:ee:ff]")%string.

(** A float that is zero, a positive number or plus infinity: neither
    negative nor NaN. *)
Definition nonneg_float (x : spec_float) : bool :=
  match x with
  | S754_zero false | S754_finite false _ _ | S754_infinity false => true
  | _ => false
  end.

(** [x <= 1.0] *)
Definition at_most_one (x : spec_float) : bool :=
  SFleb x (Float.of_Z 1).

(** The raw values on which the volume is at most 1.0 are those up to 15. *)
Definition unit_range_agrees (v : Z) : bool :=
  Bool.eqb
    (at_most_one
       (Float.round2 (Float.mul (Float.div (Float.of_Z 1) (Float.of_Z 15))
                                (Float.of_Z v))))
    (v <=? 15)%Z.

(** [s[1] == '1'], false when [s] has no second character. *)
Definition second_is_one (s : string) : bool :=
  match String.get 1 s with
  | Some c => Ascii.eqb c "1"
  | None => false
  end.

(** [key] starts at some position inside [pre], in the text [pre ++ key]. *)
Fixpoint starts_before (key pre : string) : bool :=
  match pre with
  | EmptyString => false
  | String _ pre' =>
      prefix key (pre ++ key) || starts_before key pre'
  end.

(** The dump [props] reads [pre], then [key] (its first occurrence), a text
    [mid] with no ["["], and [value] in brackets, all on one line. *)
Definition key_line (key props pre mid value post : string) : Prop :=
  props = (pre ++ key ++ mid ++ "[" ++ value ++ "]" ++ post)%string
  /\ starts_before key pre = false
  /\ Str.contains "[" mid = false
  /\ Str.contains nl mid = false
  /\ Str.contains "]" value = false
  /\ Str.contains nl value = false.

(** A music block that ends with its mute flag. *)
Definition muted_at_end_dump : string :=
  ("11Wake Locks: size=1" ++ nl
   ++ "  mCurrentFocus=null" ++ nl
   ++ "- STREAM_MUSIC: Muted: false- STREAM_ALARM:")%string.

(** A property dump with every key, and an interface dump. *)
Definition getprop_dump : string :=
  ("[ro.build.version.release]: [9]" ++ nl
   ++ "[ro.product.manufacturer]: [Acme]" ++ nl
   ++ "[ro.product.model]: [Box 2]" ++ nl
   ++ "[ro.serialno]: [A1B2C3]" ++ nl)%string.

Definition wlan0_dump : string :=
  ("3: wlan0: <BROADCAST,MULTICAST,UP> mtu 1500" ++ nl
   ++ "    link/ether aa:bb:cc:dd:ee:ff brd ff:ff:ff:ff:ff:ff" ++ nl)%string.

(** A music block that ends with the mute flag [true]. *)
Definition muted_true_at_end_dump : string :=
  ("11Wake Locks: size=1" ++ nl
   ++ "  mCurrentFocus=null" ++ nl
   ++ "- STREAM_MUSIC: Muted: true- STREAM_ALARM:")%string.

(** A music block whose device line has two blanks after the colon and
    whose only volume is that of another device. *)
Definition blank_device_dump : string :=
  ("11Wake Locks: size=1" ++ nl
   ++ "  mCurrentFocus=null" ++ nl
   ++ "- STREAM_MUSIC:" ++ nl
   ++ "   Current: 2 (speaker): 8" ++ nl
   ++ "   Devices:  hdmi" ++ nl
   ++ "- STREAM_ALARM:")%string.

(** [t] is [s] without some of its first characters. *)
Inductive suffix (t : string) : string -> Prop :=
| suffix_here : suffix t t
| suffix_later (c : ascii) (s : string) : suffix t s -> suffix t (String c s).

(** * Facts about strings and patterns *)

Section StringFacts.

Lemma append_snoc (text : string) (c : ascii) (t : string) :
  (Re.snoc text c ++ t)%string = (text ++ String c t)%string.
Proof.
  unfold Re.snoc. induction text as [| a text IH]; simpl.
  - reflexivity.
  - now rewrite IH.
Qed.

Lemma append_empty_r (s : string) : (s ++ "")%string = s.
Proof.
  induction s as [| a s IH]; simpl; [reflexivity | now rewrite IH].
Qed.

Lemma prefix_contains (l s : string) :
  prefix l s = true -> Str.contains l s = true.
Proof.
  intros H. destruct s; cbn [Str.contains]; rewrite H; reflexivity.
Qed.

Lemma suffix_contains (l t s : string) :
  suffix t s -> prefix l t = true -> Str.contains l s = true.
Proof.
  induction 1 as [| c s _ IH]; intros Hp.
  - now apply prefix_contains.
  - cbn [Str.contains]. rewrite (IH Hp). apply orb_true_r.
Qed.

Lemma lstrip_length (s : string) :
  (String.length (Str.lstrip s) <= String.length s)%nat.
Proof.
  induction s as [| a s IH]; simpl; [lia |].
  destruct (Str.is_space a); simpl; lia.
Qed.

Lemma rstrip_length (s : string) :
  (String.length (Str.rstrip s) <= String.length s)%nat.
Proof.
  induction s as [| a s IH]; simpl; [lia |].
  destruct (Str.is_empty (Str.rstrip s) && Str.is_space a); simpl; lia.
Qed.

Lemma strip_length (s : string) :
  (String.length (Str.strip s) <= String.length s)%nat.
Proof.
  unfold Str.strip.
  pose proof (rstrip_length (Str.lstrip s)). pose proof (lstrip_length s). lia.
Qed.

(** The first line is no longer than the text. *)
Lemma splitlines_head_length (s l : string) (ls : list string) :
  Str.splitlines s = l :: ls -> (String.length l <= String.length s)%nat.
Proof.
  revert l ls. induction s as [| a s IH]; intros l ls H; [discriminate |].
  cbn [Str.splitlines] in H. destruct (Str.is_linebreak a).
  - assert (l = ""%string) as ->.
    { destruct s as [| b s']; [congruence |].
      destruct ((Str.code a =? 13)%N && (Str.code b =? 10)%N); congruence. }
    simpl. lia.
  - destruct (Str.splitlines s) as [| l' ls'] eqn:E.
    + injection H as <- _. simpl. lia.
    + injection H as <- _. specialize (IH _ _ eq_refl). simpl. lia.
Qed.

End StringFacts.

Section PatternFacts.

Variable dotall : bool.

(** A match of a pattern that starts with a literal text starts with
    that text. *)
Lemma match_here_lit (l : string) (p : Re.pattern) (s : string)
      (r : option string * string) :
  Re.match_here dotall (Re.lit l ++ p) s = Some r ->
  exists s', s = (l ++ s')%string /\ Re.match_here dotall p s' = Some r.
Proof.
  revert s. induction l as [| a l IH]; intros s H.
  - exists s. split; [reflexivity | exact H].
  - simpl in H. destruct s as [| c s]; [discriminate |].
    destruct (Ascii.eqb c a) eqn:E; [| discriminate].
    apply Ascii.eqb_eq in E. subst c.
    destruct (IH _ H) as [s' [-> Hs']].
    exists s'. split; [reflexivity | exact Hs'].
Qed.

Lemma prefix_self_append (l s : string) : prefix l (l ++ s) = true.
Proof.
  induction l as [| a l IH]; simpl.
  - destruct s; reflexivity.
  - destruct (ascii_dec a a); [exact IH | congruence].
Qed.

(** Every element of [findall] is the group of a match at some start
    position. *)
Lemma findall_from_In (p : Re.pattern) (g : string) (s : string) (skip : nat) :
  In g (Re.findall_from dotall p s skip) ->
  exists t r, suffix t s /\ Re.match_here dotall p t = Some r
              /\ g = Re.group_text r.
Proof.
  revert skip. induction s as [| c s IH]; intros skip H.
  - destruct H.
  - cbn [Re.findall_from] in H. destruct skip as [| k].
    + destruct (Re.match_here dotall p (String c s)) as [r |] eqn:E.
      * destruct H as [<- | H].
        -- exists (String c s), r. repeat split; [constructor | exact E].
        -- destruct (IH _ H) as [t [r' [Hs [Hm Hg]]]].
           exists t, r'. repeat split; [now constructor | exact Hm | exact Hg].
      * destruct (IH _ H) as [t [r' [Hs [Hm Hg]]]].
        exists t, r'. repeat split; [now constructor | exact Hm | exact Hg].
    + destruct (IH _ H) as [t [r' [Hs [Hm Hg]]]].
      exists t, r'. repeat split; [now constructor | exact Hm | exact Hg].
Qed.

(** A pattern that starts with a literal text finds nothing in a string
    that does not hold the text. *)
Lemma findall_lit_absent (l : string) (p : Re.pattern) (s : string) :
  Str.contains l s = false -> Re.findall dotall (Re.lit l ++ p) s = [].
Proof.
  intros Hc. destruct (Re.findall dotall (Re.lit l ++ p) s) as [| g gs] eqn:E.
  - reflexivity.
  - assert (Hin : In g (Re.findall_from dotall (Re.lit l ++ p) s 0)).
    { unfold Re.findall in E. rewrite E. now left. }
    destruct (findall_from_In _ _ _ _ Hin) as [t [r [Hs [Hm _]]]].
    destruct (match_here_lit _ _ _ _ Hm) as [s' [-> _]].
    rewrite (suffix_contains l _ _ Hs (prefix_self_append l s')) in Hc.
    discriminate.
Qed.

(** The group of a lazy star is made of the characters at which the rest
    of the pattern failed. *)
Lemma lazy_star_group (k : string -> option (option string * string))
      (accepts skipped : ascii -> bool) :
  (forall c s, k (String c s) = None -> skipped c = true) ->
  forall s text r,
    Re.lazy_star k accepts true s text = Some r ->
    exists t, fst r = Some (text ++ t)%string /\ Str.all_chars skipped t = true.
Proof.
  intros Hk. induction s as [| c s IH]; intros text r H; simpl in H.
  - destruct (k "") as [r' |]; [| discriminate].
    injection H as <-. exists ""%string. now rewrite append_empty_r.
  - destruct (k (String c s)) as [r' |] eqn:E.
    + injection H as <-. exists ""%string. now rewrite append_empty_r.
    + destruct (accepts c); [| discriminate].
      destruct (IH _ _ H) as [t [Hr Ht]].
      exists (String c t). rewrite Hr, append_snoc. split; [reflexivity |].
      simpl. now rewrite (Hk _ _ E), Ht.
Qed.

(** The group of a greedy [{1,}] is a non-empty run of accepted
    characters. *)
Lemma greedy_plus_group (k : string -> option (option string * string))
      (accepts : ascii -> bool) :
  forall s text r,
    Re.greedy_plus k accepts true s text = Some r ->
    exists t, t <> ""%string /\ fst r = Some (text ++ t)%string
              /\ Str.all_chars accepts t = true.
Proof.
  induction s as [| c s IH]; intros text r H; simpl in H; [discriminate |].
  destruct (accepts c) eqn:Ec; [| discriminate].
  destruct (Re.greedy_plus k accepts true s (Re.snoc text c)) as [r' |] eqn:E.
  - injection H as <-. destruct (IH _ _ E) as [t [_ [Hr Ht]]].
    exists (String c t). rewrite Hr, append_snoc.
    split; [discriminate |]. split; [reflexivity |].
    simpl. now rewrite Ec, Ht.
  - destruct (k s) as [r' |]; [| discriminate].
    injection H as <-. exists (String c ""). simpl.
    split; [discriminate |]. split; [reflexivity | now rewrite Ec].
Qed.

End PatternFacts.

(** ** The groups of the module's patterns *)

Lemma first_match_In (p : Re.pattern) (s g : string) :
  first_match p s = Some g ->
  exists t r, suffix t s /\ Re.match_here true p t = Some r
              /\ g = Re.group_text r.
Proof.
  unfold first_match, Re.findall. intros H.
  apply (findall_from_In true p g s 0).
  destruct (Re.findall_from true p s 0) as [| g' gs]; [discriminate |].
  injection H as ->. now left.
Qed.

Lemma first_match_lit_absent (l : string) (p : Re.pattern) (s : string) :
  Str.contains l s = false -> first_match (Re.lit l ++ p) s = None.
Proof.
  intros H. unfold first_match. now rewrite (findall_lit_absent true l p s H).
Qed.

(** The device name is made of word characters, which a pattern reads as
    themselves: [device + VOLUME_REGEX_PATTERN] is the literal name followed
    by the volume pattern. *)
Lemma block_device_word (block d : string) :
  block_device block = Some d -> Str.all_chars Str.is_word d = true.
Proof.
  intros H. destruct (first_match_In _ _ _ H) as [t [r [_ [Hm ->]]]].
  unfold DEVICE_REGEX_PATTERN in Hm.
  destruct (match_here_lit _ _ _ _ _ Hm) as [s' [_ Hs']].
  cbn [Re.match_here] in Hs'.
  assert (Hk : forall c s0,
             Re.match_here true [Re.One Re.NonWord] (String c s0) = None ->
             Str.is_word c = true).
  { intros c s0. cbn [Re.match_here Re.atom_matches].
    destruct (Str.is_word c); [reflexivity | discriminate]. }
  destruct (lazy_star_group _ _ _ Hk _ _ _ Hs') as [w [Hr Hw]].
  unfold Re.group_text. now rewrite Hr.
Qed.

(** The raw volume is a non-empty run of decimal digits. *)
Lemma volume_group_digits (d block raw : string) :
  first_match (Re.lit d ++ VOLUME_REGEX_PATTERN) block = Some raw ->
  raw <> ""%string /\ Str.all_chars Str.is_digit raw = true.
Proof.
  intros H. destruct (first_match_In _ _ _ H) as [t [r [_ [Hm ->]]]].
  destruct (match_here_lit _ _ _ _ _ Hm) as [s' [_ Hs']].
  unfold VOLUME_REGEX_PATTERN in Hs'.
  destruct (match_here_lit _ _ _ _ _ Hs') as [s'' [_ Hs'']].
  cbn [Re.match_here] in Hs''.
  destruct (greedy_plus_group _ _ _ _ _ Hs'') as [w [Hne [Hr Hw]]].
  unfold Re.group_text. rewrite Hr. now split.
Qed.

Lemma float_eqb_eq (x y : spec_float) : Float.eqb x y = true -> x = y.
Proof.
  destruct x as [s | s | | s m e], y as [s' | s' | | s' m' e']; simpl;
    try discriminate; try reflexivity.
  - intros H. apply Bool.eqb_prop in H. now subst.
  - intros H. apply Bool.eqb_prop in H. now subst.
  - intros H. apply andb_true_iff in H as [H He].
    apply andb_true_iff in H as [Hs Hm].
    apply Bool.eqb_prop in Hs. apply Pos.eqb_eq in Hm. apply Z.eqb_eq in He.
    now subst.
Qed.

(** The two rescalings agree on every raw value from 0 to 1000. *)
Lemma rescaling_agrees_to_1000 (v : Z) :
  (0 <= v <= 1000)%Z -> rescaling_agrees v = true.
Proof.
  intros Hv.
  assert (Hall : forallb rescaling_agrees (map Z.of_nat (seq 0 1001)) = true)
    by (vm_compute; reflexivity).
  rewrite forallb_forall in Hall. apply Hall.
  apply in_map_iff. exists (Z.to_nat v). split; [lia |].
  apply in_seq. lia.
Qed.

(** * Facts about the decoder *)

(** Splits the hypothesis [H : get_properties _ _ = Return _] along the
    tests and the indexings of the function, in program order. *)
Ltac decode_step H :=
  lazymatch type of H with
  | (if ?c then _ else _) = _ => destruct c eqn:?
  | bind ?r _ = _ => destruct r eqn:?; cbn [bind] in H
  | match ?l with [] => _ | _ :: _ => _ end = _ => destruct l eqn:?
  | Raise _ = Return _ => discriminate H
  | context [match ?l with [] => _ | _ :: _ => _ end] =>
      destruct l eqn:?; cbv beta iota in H
  end.

Lemma some_inj {A : Type} (x y : A) : Some x = Some y -> x = y.
Proof. congruence. Qed.

Section DecoderFacts.

Variable REGEX_WINDOW_search : string -> option app_dict.

Local Abbreviation get := (get_properties REGEX_WINDOW_search).

Lemma get_properties_audio (output : string) (p : properties) (a : state) :
  get (Some output) = Return p ->
  audio_state p = Some a ->
  (3 <= List.length (lines_of output))%nat
  /\ a = scanned_state (audio_output_of output)
  /\ match first_match BLOCK_REGEX_PATTERN (audio_output_of output) with
     | None => device p = None /\ muted p = None /\ volume p = None
     | Some block =>
         device p = block_device block
         /\ muted p = block_muted block
         /\ volume p = block_volume block
     end.
Proof.
  intros H Ha. unfold get_properties in H. cbv zeta in H.
  repeat decode_step H.
  all: injection H as <-; unfold audio_state in Ha; try discriminate Ha.
  all: apply some_inj in Ha; subst a.
  all: unfold device, muted, volume.
  all: unfold audio_output_of, lines_of, first_match, scanned_state.
  all: apply Nat.ltb_ge in Heqb3.
  all: rewrite Heql; cbn [hd_error].
  all: repeat split; try assumption; try reflexivity.
  all: unfold block_volume, block_device, block_muted, first_match.
  all: repeat match goal with
         | E : Re.findall _ _ _ = _ |- _ =>
             rewrite E; clear E; cbn [hd_error option_map]
         end.
  all: reflexivity.
Qed.

Lemma get_properties_no_audio (output : option string) (p : properties) :
  get output = Return p ->
  audio_state p = None ->
  device p = None /\ muted p = None /\ volume p = None.
Proof.
  intros H Ha. destruct output as [output |];
    [| injection H as <-; now repeat split].
  unfold get_properties in H. cbv zeta in H.
  repeat decode_step H.
  all: injection H as <-; unfold audio_state in Ha; try discriminate Ha.
  all: now repeat split.
Qed.

Lemma get_properties_first_fields (output : string) (p : properties) :
  get (Some output) = Return p ->
  screen_on p <> None /\ awake p <> None /\ wake_lock_size p <> None.
Proof.
  intros H. unfold get_properties in H. cbv zeta in H.
  repeat decode_step H.
  all: injection H as <-; now repeat split.
Qed.

Lemma get_properties_current_app (output : string) (p : properties) :
  get (Some output) = Return p ->
  current_app p <> None ->
  exists line0 line1 rest,
    lines_of output = line0 :: line1 :: rest
    /\ current_app p = REGEX_WINDOW_search line1.
Proof.
  intros H Hc. unfold get_properties in H. cbv zeta in H.
  repeat decode_step H.
  all: injection H as <-; try (now elim Hc); cbn [current_app].
  all: unfold lines_of; unfold py_index in Heqr1, Heqr4.
  all: destruct (Str.splitlines (Str.strip output)) as [| first [| second others]];
    try discriminate.
  all: injection Heqr4 as <-; now exists first, second, others.
Qed.

Lemma get_properties_volume_device (output : string) (p : properties) :
  get (Some output) = Return p ->
  volume p <> None -> device p <> None.
Proof.
  intros H Hv Hd.
  destruct (audio_state p) as [a |] eqn:E.
  - destruct (get_properties_audio _ _ _ H E) as [_ [_ Hb]].
    destruct (first_match BLOCK_REGEX_PATTERN (audio_output_of output))
      as [block |].
    + destruct Hb as [Hdev [_ Hvol]]. unfold block_volume in Hvol.
      rewrite <- Hdev, Hd in Hvol. now elim Hv.
    + now elim Hv.
  - destruct (get_properties_no_audio _ _ H E) as [_ [_ Hv']].
    now elim Hv.
Qed.

(** The decoder reaches the audio dump, and returns, as soon as the
    first line holds an integer after its ["="] and two more lines
    follow. *)
Lemma get_properties_reaches_audio (output line0 line1 line2 : string)
      (rest : list string) (field : string) (n : Z) :
  lines_of output = line0 :: line1 :: line2 :: rest ->
  (3 <= String.length line0)%nat ->
  nth_error (Str.split "=" line0) 1 = Some field ->
  Str.to_int (Str.strip field) = Some n ->
  exists p,
    get (Some output) = Return p
    /\ wake_lock_size p = Some n
    /\ current_app p = REGEX_WINDOW_search line1
    /\ audio_state p = Some (scanned_state (audio_output_of output)).
Proof.
  intros Hlines Hlen Hfield Hint.
  assert (Hout : (3 <= String.length output)%nat).
  { pose proof (splitlines_head_length _ _ _ Hlines).
    pose proof (strip_length output). lia. }
  assert (E1 : Str.is_empty output = false).
  { destruct output; [simpl in Hout; lia | reflexivity]. }
  assert (E2 : exists c0, str_index output 0 = Return c0).
  { destruct output as [| c0 o]; [simpl in Hout; lia | now exists c0]. }
  assert (E3 : (String.length output <? 2)%nat = false).
  { apply Nat.ltb_ge. lia. }
  assert (E4 : exists c1, str_index output 1 = Return c1).
  { destruct output as [| c0 [| c1 o]]; simpl in Hout; try lia. now exists c1. }
  destruct E2 as [c0 E2]. destruct E4 as [c1 E4].
  apply Nat.ltb_ge in Hlen.
  unfold audio_output_of. rewrite Hlines.
  unfold get_properties. rewrite E1, E2. cbn [bind]. rewrite E3, E4.
  cbn [bind]. change (Str.splitlines (Str.strip output)) with (lines_of output).
  rewrite Hlines. cbn [py_index nth_error bind]. rewrite Hlen.
  unfold py_index. rewrite Hfield. cbn [bind].
  unfold py_int. rewrite Hint. cbn [bind List.length Nat.ltb Nat.leb nth_error].
  destruct (Re.findall true BLOCK_REGEX_PATTERN _); cbv zeta.
  - eexists. repeat split.
  - destruct (Re.findall true DEVICE_REGEX_PATTERN _);
      eexists; repeat split.
Qed.

End DecoderFacts.

(** * The claims *)

(** C1 (fails on the code): [get_properties] raises on present outputs.  A
    first line cut before its ["="] and an output of two blanks end in
    [IndexError], a first line cut right after its ["="] in [ValueError];
    no tuple is returned there, whatever the window pattern. *)
Theorem get_properties_raises (ws : string -> option app_dict) :
  get_properties ws (Some "11Wake Locks: si") = Raise IndexError
  /\ get_properties ws (Some "  ") = Raise IndexError
  /\ get_properties ws (Some "11Wake Locks: size=") = Raise ValueError.
Proof. repeat split. Qed.

(** C2, as stated, fails: output [idle_dump] decodes to a snapshot with the
    screen on, awake, one wake lock and audio state Idle, and [update]
    reports Idle, where the claim asks for Playing. *)
Lemma update_idle_audio_counterexample :
  update no_window (Some idle_dump)
  = Return (Build_status STATE_IDLE None None None None)
  /\ ~ (forall p : properties,
         screen_on p = Some true -> audio_state p = Some STATE_IDLE ->
         awake p = Some true -> wake_lock_size p = Some 1%Z ->
         st_state (update_of p) = STATE_PLAYING).
Proof.
  split; [reflexivity |].
  intros H.
  specialize (H (Build_properties (Some true) (Some true) (Some 1%Z) None
                                  (Some STATE_IDLE) None None None)
                eq_refl eq_refl eq_refl eq_refl).
  discriminate H.
Qed.

(** C2, amended: with the screen off or unset the state is Off; with the
    screen on, a set audio state (Playing, Paused or Idle) is the state;
    with the audio state unset the state is Idle unless awake is true, and
    then Playing when the wake-lock count is 1, Paused otherwise. *)
Theorem update_of_precedence (p : properties) :
  (screen_on p <> Some true -> st_state (update_of p) = STATE_OFF)
  /\ (screen_on p = Some true ->
      (forall a, audio_state p = Some a -> st_state (update_of p) = a)
      /\ (audio_state p = None -> awake p <> Some true ->
          st_state (update_of p) = STATE_IDLE)
      /\ (audio_state p = None -> awake p = Some true ->
          wake_lock_size p = Some 1%Z ->
          st_state (update_of p) = STATE_PLAYING)
      /\ (audio_state p = None -> awake p = Some true ->
          wake_lock_size p <> Some 1%Z ->
          st_state (update_of p) = STATE_PAUSED)).
Proof.
  unfold update_of. split.
  - intros Hs. destruct (screen_on p) as [[|] |]; [now elim Hs | reflexivity ..].
  - intros ->. cbn [py_not negb]. repeat split.
    + intros a ->. now destruct a.
    + intros -> Ha. destruct (awake p) as [[|] |]; [now elim Ha | reflexivity ..].
    + intros -> -> ->. reflexivity.
    + intros -> -> Hw. cbn [py_not negb st_state].
      destruct (wake_lock_size p) as [[| [q | q |] | q] |];
        try reflexivity. now elim Hw.
Qed.

Lemma update_of_precedence_witness :
  screen_on one_lock_snapshot = Some true
  /\ audio_state one_lock_snapshot = None
  /\ awake one_lock_snapshot = Some true
  /\ wake_lock_size one_lock_snapshot = Some 1%Z
  /\ st_state (update_of one_lock_snapshot) = STATE_PLAYING.
Proof.
  do 4 (split; [reflexivity |]).
  exact (proj1 (proj2 (proj2 (proj2 (update_of_precedence one_lock_snapshot)
                                    eq_refl)))
               eq_refl eq_refl eq_refl).
Defined.

(** C3, as stated, fails: the empty output is shorter than 2 characters and
    its snapshot has awake set to false and the wake-lock count set to -1. *)
Lemma short_output_counterexample :
  get_properties no_window (Some "")
  = Return (Build_properties (Some false) (Some false) (Some (-1)%Z)
                             None None None None None)
  /\ ~ (forall output : string,
         (String.length output < 2)%nat ->
         exists p, get_properties no_window (Some output) = Return p
                   /\ awake p = None /\ wake_lock_size p = None
                   /\ current_app p = None /\ audio_state p = None
                   /\ device p = None /\ muted p = None /\ volume p = None).
Proof.
  split; [reflexivity |].
  intros H. destruct (H ""%string) as [p [Hp [Ha _]]]; [simpl; lia |].
  injection Hp as <-. discriminate Ha.
Qed.

(** C3, amended: on every output shorter than 2 characters [get_properties]
    returns, without raising, the screen flag read from the output (true
    exactly for the output ["1"]), awake false, the wake-lock count -1 and
    the five later fields unset. *)
Theorem get_properties_short_output
        (ws : string -> option app_dict) (output : string) :
  (String.length output < 2)%nat ->
  get_properties ws (Some output)
  = Return (Build_properties (Some (String.eqb output "1")) (Some false)
                             (Some (-1)%Z) None None None None None).
Proof.
  intros H. destruct output as [| c [| c' o]]; [reflexivity | | simpl in H; lia].
  unfold get_properties. cbn. now destruct (Ascii.eqb c "1").
Qed.

Lemma get_properties_short_output_witness :
  (String.length "0" < 2)%nat
  /\ get_properties no_window (Some "0")
     = Return (Build_properties (Some false) (Some false) (Some (-1)%Z)
                                None None None None None).
Proof.
  split; [simpl; lia |].
  apply (get_properties_short_output no_window "0"). simpl; lia.
Defined.

(** C4: an absent output gives the tuple of eight unset fields; the empty
    output gives screen off, awake false, wake-lock count -1 and the five
    later fields unset. *)
Theorem get_properties_absent_and_empty (ws : string -> option app_dict) :
  get_properties ws None
  = Return (Build_properties None None None None None None None None)
  /\ get_properties ws (Some "")
     = Return (Build_properties (Some false) (Some false) (Some (-1)%Z)
                                None None None None None).
Proof. split; reflexivity. Qed.

(** C5, as stated, fails: on [muted_only_dump] the muted flag is set while
    the playback device, the field before it, is not (and the current app
    is unset under a set audio state), so the set fields are no initial
    segment of the tuple. *)
Lemma field_order_counterexample :
  (exists p, get_properties no_window (Some muted_only_dump) = Return p
             /\ fields_set p
                = [true; true; true; false; true; false; true; false])
  /\ ~ (forall (ws : string -> option app_dict) (output : string)
               (p : properties),
         get_properties ws (Some output) = Return p ->
         forall i j : nat,
           (i < j)%nat ->
           nth j (fields_set p) false = true ->
           nth i (fields_set p) false = true).
Proof.
  split.
  - eexists. split; reflexivity.
  - intros H.
    specialize (H no_window muted_only_dump _ eq_refl 5%nat 6%nat
                  ltac:(lia) eq_refl).
    discriminate H.
Qed.

(** C5, amended: on every present output on which [get_properties] returns,
    the screen flag, awake and the wake-lock count are set; the current app
    is set only when the output has a second line and the audio state only
    when it has a third; the playback device and the muted flag are set
    only when the audio state is, and the volume only when the playback
    device is. *)
Theorem get_properties_field_dependencies
        (ws : string -> option app_dict) (output : string) (p : properties) :
  get_properties ws (Some output) = Return p ->
  screen_on p <> None /\ awake p <> None /\ wake_lock_size p <> None
  /\ (current_app p <> None -> (2 <= List.length (lines_of output))%nat)
  /\ (audio_state p <> None -> (3 <= List.length (lines_of output))%nat)
  /\ (device p <> None -> audio_state p <> None)
  /\ (muted p <> None -> audio_state p <> None)
  /\ (volume p <> None -> device p <> None).
Proof.
  intros H.
  destruct (get_properties_first_fields ws _ _ H) as [Hs [Ha Hw]].
  repeat split; try assumption.
  - intros Hc.
    destruct (get_properties_current_app ws _ _ H Hc) as [l0 [l1 [ls [-> _]]]].
    simpl. lia.
  - intros Hau. destruct (audio_state p) as [a |] eqn:E; [| now elim Hau].
    exact (proj1 (get_properties_audio ws _ _ _ H E)).
  - intros Hd Hau.
    destruct (get_properties_no_audio ws _ _ H Hau) as [Hd' _]. now elim Hd.
  - intros Hm Hau.
    destruct (get_properties_no_audio ws _ _ H Hau) as [_ [Hm' _]]. now elim Hm.
  - exact (get_properties_volume_device ws _ _ H).
Qed.

Lemma get_properties_field_dependencies_witness :
  exists p,
    get_properties no_window (Some full_dump) = Return p
    /\ volume p <> None /\ device p <> None /\ audio_state p <> None
    /\ (3 <= List.length (lines_of full_dump))%nat.
Proof.
  eexists. split; [reflexivity |].
  pose proof (get_properties_field_dependencies no_window full_dump _ eq_refl)
    as [_ [_ [_ [_ [H3 [Hd [_ Hv]]]]]]].
  assert (Hvol : Some (volume_of "8") <> None) by discriminate.
  split; [exact Hvol |].
  split; [exact (Hv Hvol) |].
  split; [exact (Hd (Hv Hvol)) | exact (H3 (Hd (Hv Hvol)))].
Defined.

(** The rescaling of the volume and the audio fields that a block does not
    give rest on the facts about the text of the stream block; they are
    proved at the end of the file. *)

(** C8: when the first line holds an integer after its ["="] and at least
    two more lines follow, [get_properties] returns with the audio state
    read from the audio dump alone (Playing if it holds ["started"], else
    Paused if it holds ["paused"], else Idle); when the dump has no stream
    block the audio state is set all the same and the playback device, the
    muted flag and the volume are unset. *)
Theorem audio_state_from_scan
        (ws : string -> option app_dict) (output line0 line1 line2 : string)
        (rest : list string) (field : string) (n : Z) :
  lines_of output = line0 :: line1 :: line2 :: rest ->
  (3 <= String.length line0)%nat ->
  nth_error (Str.split "=" line0) 1 = Some field ->
  Str.to_int (Str.strip field) = Some n ->
  exists p,
    get_properties ws (Some output) = Return p
    /\ audio_state p
       = Some (if Str.contains "started" (Str.join nl (line2 :: rest))
               then STATE_PLAYING
               else if Str.contains "paused" (Str.join nl (line2 :: rest))
                    then STATE_PAUSED
                    else STATE_IDLE)
    /\ (Re.findall true BLOCK_REGEX_PATTERN (Str.join nl (line2 :: rest)) = [] ->
        device p = None /\ muted p = None /\ volume p = None).
Proof.
  intros Hlines Hlen Hfield Hint.
  destruct (get_properties_reaches_audio ws _ _ _ _ _ _ _
              Hlines Hlen Hfield Hint) as [p [Hp [_ [_ Ha]]]].
  exists p. split; [exact Hp |].
  assert (Hrest : audio_output_of output = Str.join nl (line2 :: rest))
    by (unfold audio_output_of; now rewrite Hlines).
  split.
  - rewrite Ha, Hrest. reflexivity.
  - intros Hnone.
    destruct (get_properties_audio ws _ _ _ Hp Ha) as [_ [_ Hb]].
    rewrite Hrest in Hb. unfold first_match in Hb. now rewrite Hnone in Hb.
Qed.

Lemma audio_state_from_scan_witness :
  lines_of idle_dump
  = ["11Wake Locks: size=1"; "  mCurrentFocus=null"; "Audio routes: none"]%string
  /\ (3 <= String.length "11Wake Locks: size=1")%nat
  /\ nth_error (Str.split "=" "11Wake Locks: size=1") 1 = Some "1"%string
  /\ Str.to_int (Str.strip "1") = Some 1%Z
  /\ exists p,
      get_properties no_window (Some idle_dump) = Return p
      /\ audio_state p = Some STATE_IDLE
      /\ (Re.findall true BLOCK_REGEX_PATTERN "Audio routes: none" = [] ->
          device p = None /\ muted p = None /\ volume p = None).
Proof.
  split; [reflexivity |]. split; [simpl; lia |].
  split; [reflexivity |]. split; [reflexivity |].
  exact (audio_state_from_scan no_window idle_dump _ _ _ _ _ _
           eq_refl ltac:(simpl; lia) eq_refl eq_refl).
Defined.

(** C9: on a property dump in which the pattern of [serialno],
    [manufacturer], [product.model] or [version.release] matches nowhere,
    [get_device_properties] raises and returns no record; the exception is
    the [IndexError] of the empty match list whenever the wifi lookup had a
    text to search (the dump names [wifimac], or the interface query
    answered). *)
Theorem get_device_properties_missing_key
        (properties : string) (wifi_out : option string) :
  Re.findall false SERIALNO_REGEX_PATTERN properties = []
  \/ Re.findall false MANUF_REGEX_PATTERN properties = []
  \/ Re.findall false MODEL_REGEX_PATTERN properties = []
  \/ Re.findall false VERSION_REGEX_PATTERN properties = [] ->
  (exists e, get_device_properties (Some properties) wifi_out = Raise e)
  /\ (Str.contains "wifimac" properties = true \/ wifi_out <> None ->
      get_device_properties (Some properties) wifi_out = Raise IndexError).
Proof.
intros Hmiss.
assert (Hkeys :
          forall w : string,
            (s <- py_index (Re.findall false SERIALNO_REGEX_PATTERN properties) 0 ;;
             m <- py_index (Re.findall false MANUF_REGEX_PATTERN properties) 0 ;;
             d <- py_index (Re.findall false MODEL_REGEX_PATTERN properties) 0 ;;
             v <- py_index (Re.findall false VERSION_REGEX_PATTERN properties) 0 ;;
             Return (Build_device_properties w s m d v))
            = Raise IndexError).
{ intros w. unfold py_index.
  destruct (Re.findall false SERIALNO_REGEX_PATTERN properties);
    [reflexivity |].
  destruct (Re.findall false MANUF_REGEX_PATTERN properties);
    [reflexivity |].
  destruct (Re.findall false MODEL_REGEX_PATTERN properties);
    [reflexivity |].
  destruct (Re.findall false VERSION_REGEX_PATTERN properties);
    [reflexivity |].
  exfalso. destruct Hmiss as [H | [H | [H | H]]]; discriminate H. }
assert (Hindex : forall (l : list string) (e : exn),
           py_index l 0 = Raise e -> e = IndexError).
{ intros l e. unfold py_index. destruct (nth_error l 0); congruence. }
unfold get_device_properties. cbn [expect_str bind].
destruct (Str.contains "wifimac" properties).
- destruct (py_index (Re.findall false WIFIMAC_PROP_REGEX_PATTERN properties) 0)
    as [w | e] eqn:E; cbn [bind].
  + rewrite (Hkeys w). split; [now eexists | reflexivity].
  + rewrite (Hindex _ _ E). split; [now eexists | reflexivity].
- destruct wifi_out as [out |]; cbn [expect_str bind].
  + destruct (py_index (Re.findall false WIFIMAC_REGEX_PATTERN out) 0)
      as [w | e] eqn:E; cbn [bind].
    * rewrite (Hkeys w). split; [now eexists | reflexivity].
    * rewrite (Hindex _ _ E). split; [now eexists | reflexivity].
  + split; [now eexists |].
    intros [H | H]; [discriminate H | now elim H].
Qed.

Lemma get_device_properties_missing_key_witness :
  Re.findall false SERIALNO_REGEX_PATTERN getprop_without_serialno = []
  /\ Str.contains "wifimac" getprop_without_serialno = true
  /\ get_device_properties (Some getprop_without_serialno) None
     = Raise IndexError.
Proof.
  split; [reflexivity |]. split; [reflexivity |].
  exact (proj2 (get_device_properties_missing_key getprop_without_serialno None
                  (or_introl eq_refl))
               (or_introl eq_refl)).
Defined.

(** C10: in every tuple that [get_properties] returns, a set volume comes
    with a set playback device; the muted flag can be set with the playback
    device unset, as on [muted_only_dump]. *)
Theorem volume_needs_device :
  (forall (ws : string -> option app_dict) (output : option string)
          (p : properties),
      get_properties ws output = Return p ->
      volume p <> None -> device p <> None)
  /\ (exists p, get_properties no_window (Some muted_only_dump) = Return p
                /\ muted p = Some true /\ device p = None).
Proof.
  split.
  - intros ws [output |] p H Hv.
    + exact (get_properties_volume_device ws output p H Hv).
    + injection H as <-. now elim Hv.
  - eexists. repeat split.
Qed.

Lemma volume_needs_device_witness :
  exists p,
    get_properties no_window (Some full_dump) = Return p
    /\ volume p <> None
    /\ device p = Some "speaker"%string
    /\ device p <> None.
Proof.
  eexists. split; [reflexivity |].
  assert (Hvol : Some (volume_of "8") <> None) by discriminate.
  split; [exact Hvol |]. split; [reflexivity |].
  exact (proj1 volume_needs_device no_window (Some full_dump) _ eq_refl Hvol).
Defined.

(** * Further properties *)

(** ** More facts about strings *)

Lemma append_assoc (a b c : string) :
  ((a ++ b) ++ c)%string = (a ++ (b ++ c))%string.
Proof.
induction a as [| x a IH]; simpl; [reflexivity | now rewrite IH].
Qed.

Lemma suffix_append (pre t : string) : suffix t (pre ++ t).
Proof.
induction pre as [| c pre IH]; simpl; [constructor | now constructor].
Qed.

Lemma suffix_split (t s : string) :
  suffix t s -> exists pre, s = (pre ++ t)%string.
Proof.
induction 1 as [| c s _ [pre ->]].
- now exists ""%string.
- now exists (String c pre).
Qed.

Lemma prefix_split (l s : string) :
  prefix l s = true -> exists w, s = (l ++ w)%string.
Proof.
revert s. induction l as [| a l IH]; intros s H.
- now exists s.
- destruct s as [| b s]; [discriminate |]. simpl in H.
  destruct (ascii_dec a b) as [<- |]; [| discriminate].
  destruct (IH _ H) as [w ->]. now exists w.
Qed.

Lemma contains_split (l s : string) :
  Str.contains l s = true ->
  exists a w, s = (a ++ l ++ w)%string.
Proof.
induction s as [| c s IH]; cbn [Str.contains]; intros H.
- rewrite orb_false_r in H. destruct (prefix_split _ _ H) as [w ->].
  now exists ""%string, w.
- apply orb_true_iff in H as [H | H].
  + destruct (prefix_split _ _ H) as [w ->]. now exists ""%string, w.
  + destruct (IH H) as [a [w ->]]. now exists (String c a), w.
Qed.

Lemma contains_append (l a w : string) :
  Str.contains l (a ++ l ++ w)%string = true.
Proof.
apply (suffix_contains l (l ++ w)).
- apply suffix_append.
- apply prefix_self_append.
Qed.

Lemma all_chars_contains (x : ascii) (s : string) :
  Str.all_chars (fun c => negb (Ascii.eqb c x)) s = true ->
  Str.contains (String x "") s = false.
Proof.
induction s as [| c s IH]; cbn [Str.contains Str.all_chars]; intros H.
- reflexivity.
- apply andb_true_iff in H as [Hc Hs]. rewrite (IH Hs), orb_false_r.
  simpl. destruct (ascii_dec x c) as [-> |]; [| reflexivity].
  now rewrite Ascii.eqb_refl in Hc.
Qed.

(** ** More facts about patterns *)

Section MorePatternFacts.

Variable dotall : bool.

Lemma match_here_lit_append (l : string) (p : Re.pattern) (s : string) :
  Re.match_here dotall (Re.lit l ++ p) (l ++ s)%string
  = Re.match_here dotall p s.
Proof.
induction l as [| a l IH]; simpl; [reflexivity |].
now rewrite Ascii.eqb_refl.
Qed.

(** What a successful lazy star has done: it took a run [u] of accepted
    characters, the rest of the pattern matched what follows, and matched
    at no earlier position of the run. *)
Lemma lazy_star_sound (k : string -> option (option string * string))
      (accepts : ascii -> bool) (group : bool) :
  forall s text r,
    Re.lazy_star k accepts group s text = Some r ->
    exists u v r0,
      s = (u ++ v)%string
      /\ Str.all_chars accepts u = true
      /\ k v = Some r0
      /\ r = Re.with_group group (text ++ u)%string r0
      /\ (forall u1 u2, u = (u1 ++ u2)%string -> u2 <> ""%string ->
                        k (u2 ++ v)%string = None).
Proof.
assert (Hnil : forall (v u1 u2 : string),
           ""%string = (u1 ++ u2)%string -> u2 <> ""%string ->
           k (u2 ++ v)%string = None).
{ intros v [| x u1] u2 Hu Hne; simpl in Hu; [now subst | discriminate]. }
induction s as [| c s IH]; intros text r H; simpl in H.
- destruct (k "") as [r0 |] eqn:E; [| discriminate].
  injection H as <-. exists ""%string, ""%string, r0.
  split; [reflexivity |]. split; [reflexivity |]. split; [exact E |].
  split; [now rewrite append_empty_r | apply Hnil].
- destruct (k (String c s)) as [r0 |] eqn:E.
  + injection H as <-. exists ""%string, (String c s), r0.
    split; [reflexivity |]. split; [reflexivity |]. split; [exact E |].
    split; [now rewrite append_empty_r | apply Hnil].
  + destruct (accepts c) eqn:Ec; [| discriminate].
    destruct (IH _ _ H) as [u [v [r0 [-> [Hu [Hk [-> Hmin]]]]]]].
    exists (String c u), v, r0. rewrite append_snoc.
    split; [reflexivity |]. split; [simpl; now rewrite Ec, Hu |].
    split; [exact Hk |]. split; [reflexivity |].
    intros [| x u1] u2 Hsplit Hne; simpl in Hsplit.
    * subst u2. exact E.
    * injection Hsplit as _ Hsplit. exact (Hmin _ _ Hsplit Hne).
Qed.

(** A lazy star succeeds as soon as the rest of the pattern matches after
    some run of accepted characters. *)
Lemma lazy_star_complete (k : string -> option (option string * string))
      (accepts : ascii -> bool) (group : bool) (u v : string) :
  Str.all_chars accepts u = true ->
  k v <> None ->
  forall text, Re.lazy_star k accepts group (u ++ v)%string text <> None.
Proof.
intros Hu Hk. induction u as [| c u IH]; intros text.
- simpl. destruct v as [| c v]; simpl; destruct (k _);
    try discriminate; now elim Hk.
- simpl in Hu. apply andb_true_iff in Hu as [Hc Hu].
  simpl. destruct (k (String c (u ++ v))); [discriminate |].
  rewrite Hc. apply (IH Hu).
Qed.

(** [findall] finds something as soon as the pattern matches at some
    start position. *)
Lemma findall_from_complete (p : Re.pattern) (t s : string) :
  suffix t s -> t <> ""%string ->
  Re.match_here dotall p t <> None ->
  Re.findall_from dotall p s 0 <> [].
Proof.
intros Hs Ht Hm. induction Hs as [| c s Hs IH].
- destruct t as [| c t]; [now elim Ht |]. cbn [Re.findall_from].
  destruct (Re.match_here dotall p (String c t)); [discriminate | now elim Hm].
- cbn [Re.findall_from].
  destruct (Re.match_here dotall p (String c s)); [discriminate | exact IH].
Qed.

End MorePatternFacts.

Lemma match_here_lit_only (dotall : bool) (l v : string)
      (r0 : option string * string) :
  Re.match_here dotall (Re.lit l) v = Some r0 ->
  exists w, v = (l ++ w)%string /\ r0 = (None, w).
Proof.
intros H. rewrite <- (app_nil_r (Re.lit l)) in H.
destruct (match_here_lit _ _ _ _ _ H) as [w [-> Hw]].
exists w. split; [reflexivity |]. simpl in Hw. congruence.
Qed.

Lemma match_here_lit_self (dotall : bool) (l w : string) :
  Re.match_here dotall (Re.lit l) (l ++ w)%string = Some (None, w).
Proof.
rewrite <- (app_nil_r (Re.lit l)). now rewrite match_here_lit_append.
Qed.

Lemma all_chars_dotall (s : string) :
  Str.all_chars (Re.atom_matches true Re.Dot) s = true.
Proof.
induction s as [| c s IH]; simpl; [reflexivity | exact IH].
Qed.

Lemma first_match_complete (p : Re.pattern) (pre t : string) :
  t <> ""%string ->
  Re.match_here true p t <> None ->
  first_match p (pre ++ t) <> None.
Proof.
intros Ht Hm. unfold first_match, Re.findall.
pose proof (findall_from_complete true p t (pre ++ t)
              (suffix_append pre t) Ht Hm) as H.
destruct (Re.findall_from true p (pre ++ t) 0); [now elim H | discriminate].
Qed.

(** ** The stream block *)

Lemma stream_block_sound (s b : string) :
  first_match BLOCK_REGEX_PATTERN s = Some b ->
  exists pre post,
    s = (pre ++ "STREAM_MUSIC" ++ b ++ "- STREAM" ++ post)%string
    /\ Str.contains "- STREAM" b = false.
Proof.
intros H.
destruct (first_match_In _ _ _ H) as [t [r [Hsuf [Hm ->]]]].
destruct (suffix_split _ _ Hsuf) as [pre ->].
unfold BLOCK_REGEX_PATTERN in Hm.
destruct (match_here_lit _ _ _ _ _ Hm) as [s' [-> Hs']].
change ([Re.LazyStar Re.Dot true] ++ Re.lit "- STREAM")
  with (Re.LazyStar Re.Dot true :: Re.lit "- STREAM") in Hs'.
cbn [Re.match_here] in Hs'.
destruct (lazy_star_sound _ _ _ _ _ _ Hs')
  as [u [v [r0 [-> [_ [Hk [-> Hmin]]]]]]].
destruct (match_here_lit_only _ _ _ _ Hk) as [post [-> _]].
exists pre, post. cbn [Re.with_group Re.group_text fst append].
split; [reflexivity |].
destruct (Str.contains "- STREAM" u) eqn:C; [| reflexivity].
destruct (contains_split _ _ C) as [a [w ->]].
assert (Hne : ("- STREAM" ++ w)%string <> ""%string) by discriminate.
specialize (Hmin a _ eq_refl Hne).
rewrite append_assoc, match_here_lit_self in Hmin. discriminate Hmin.
Qed.

Lemma stream_block_found (pre mid post : string) :
  first_match BLOCK_REGEX_PATTERN
              (pre ++ "STREAM_MUSIC" ++ mid ++ "- STREAM" ++ post)%string
  <> None.
Proof.
apply first_match_complete; [discriminate |].
unfold BLOCK_REGEX_PATTERN. rewrite match_here_lit_append.
change ([Re.LazyStar Re.Dot true] ++ Re.lit "- STREAM")
  with (Re.LazyStar Re.Dot true :: Re.lit "- STREAM").
cbn [Re.match_here].
apply lazy_star_complete; [apply all_chars_dotall |].
now rewrite match_here_lit_self.
Qed.

(** No block is found in a text that lacks one of the two markers. *)
Lemma stream_block_absent (s : string) :
  Str.contains "STREAM_MUSIC" s = false \/ Str.contains "- STREAM" s = false ->
  first_match BLOCK_REGEX_PATTERN s = None.
Proof.
intros H. destruct (first_match BLOCK_REGEX_PATTERN s) as [b |] eqn:E;
  [exfalso | reflexivity].
destruct (stream_block_sound _ _ E) as [pre [post [-> _]]].
destruct H as [H | H].
- now rewrite contains_append in H.
- replace (pre ++ "STREAM_MUSIC" ++ b ++ "- STREAM" ++ post)%string
    with ((pre ++ "STREAM_MUSIC" ++ b) ++ "- STREAM" ++ post)%string in H
    by (now rewrite !append_assoc).
  now rewrite contains_append in H.
Qed.

(** X7: the stream block is the text between an occurrence of
    ["STREAM_MUSIC"] and the next ["- STREAM"] after it, which the block
    itself does not hold; and a block is found in every text where
    ["STREAM_MUSIC"] is followed, anywhere later, by ["- STREAM"]. *)
Theorem stream_block_extent (s : string) :
  (forall b,
      first_match BLOCK_REGEX_PATTERN s = Some b ->
      exists pre post,
        s = (pre ++ "STREAM_MUSIC" ++ b ++ "- STREAM" ++ post)%string
        /\ Str.contains "- STREAM" b = false)
  /\ (forall pre mid post,
         s = (pre ++ "STREAM_MUSIC" ++ mid ++ "- STREAM" ++ post)%string ->
         first_match BLOCK_REGEX_PATTERN s <> None).
Proof.
split.
- intros b. apply stream_block_sound.
- intros pre mid post ->. apply stream_block_found.
Qed.

Lemma stream_block_extent_witness :
  first_match BLOCK_REGEX_PATTERN (audio_output_of full_dump) <> None
  /\ exists b pre post,
      first_match BLOCK_REGEX_PATTERN (audio_output_of full_dump) = Some b
      /\ audio_output_of full_dump
         = (pre ++ "STREAM_MUSIC" ++ b ++ "- STREAM" ++ post)%string
      /\ Str.contains "- STREAM" b = false.
Proof.
destruct (stream_block_extent (audio_output_of full_dump)) as [Hsound Hfound].
split.
- apply (Hfound "- "%string
                (":" ++ nl ++ "   Muted: false" ++ nl
                 ++ "   Current: 2 (speaker): 8, 4 (headset): 15" ++ nl
                 ++ "   Devices: speaker" ++ nl)%string
                "_ALARM:"%string).
  reflexivity.
- eexists. destruct (Hsound _ eq_refl) as [pre [post [Hs Hc]]].
  exists pre, post. split; [reflexivity |]. split; [exact Hs | exact Hc].
Defined.

(** ** When the decoder raises *)

Lemma split_nonempty (c : ascii) (s : string) : Str.split c s <> [].
Proof.
destruct s as [| a s]; simpl; [discriminate |].
destruct (Ascii.eqb a c); [discriminate |].
destruct (Str.split c s); discriminate.
Qed.

(** [s.split(c)] has a second element exactly when [c] occurs in [s]. *)
Lemma split_second (c : ascii) (s : string) :
  nth_error (Str.split c s) 1 = None
  <-> Str.contains (String c "") s = false.
Proof.
induction s as [| a s IH]; cbn [Str.split Str.contains].
- simpl. tauto.
- destruct (Ascii.eqb a c) eqn:E.
  + apply Ascii.eqb_eq in E. subst a. simpl.
    destruct (ascii_dec c c) as [_ | N]; [| now elim N].
    pose proof (split_nonempty c s).
    destruct (Str.split c s); [contradiction |]. simpl.
    split; [discriminate |]. destruct s; discriminate.
  + assert (Hp : prefix (String c "") (String a s) = false).
    { simpl. destruct (ascii_dec c a) as [-> |]; [| reflexivity].
      now rewrite Ascii.eqb_refl in E. }
    rewrite Hp, orb_false_l, <- IH.
    pose proof (split_nonempty c s).
    destruct (Str.split c s) as [| l ls]; [contradiction |]. simpl. tauto.
Qed.

Lemma py_index_raise {A : Type} (l : list A) (i : nat) (e : exn) :
  py_index l i = Raise e -> nth_error l i = None /\ e = IndexError.
Proof.
unfold py_index. destruct (nth_error l i); [discriminate |].
intros H. injection H as <-. now split.
Qed.

Section RaiseFacts.

Variable REGEX_WINDOW_search : string -> option app_dict.

Lemma get_properties_raise_inv (output : string) (e : exn) :
  get_properties REGEX_WINDOW_search (Some output) = Raise e ->
  (2 <= String.length output)%nat
  /\ ((lines_of output = [] /\ e = IndexError)
      \/ exists line0 rest,
        lines_of output = line0 :: rest
        /\ (3 <= String.length line0)%nat
        /\ ((nth_error (Str.split "=" line0) 1 = None /\ e = IndexError)
            \/ exists field,
              nth_error (Str.split "=" line0) 1 = Some field
              /\ Str.to_int (Str.strip field) = None
              /\ e = ValueError)).
Proof.
intros H. unfold get_properties in H. cbv zeta in H.
repeat decode_step H.
all: try discriminate H.
all: injection H as <-.
all: try (exfalso;
          match goal with
          | E : str_index ?o _ = Raise _ |- _ =>
              unfold str_index in E;
              destruct o as [| c0 [| c1 o']]; simpl in *; discriminate
          | E : py_index _ 1 = Raise _,
            L : (List.length _ <? 2)%nat = false |- _ =>
              apply py_index_raise in E; destruct E as [E _];
              apply nth_error_None in E; apply Nat.ltb_ge in L; lia
          end).
all: match goal with
     | L : (String.length ?o <? 2)%nat = false |- (2 <= String.length ?o)%nat /\ _ =>
         apply Nat.ltb_ge in L; split; [exact L |]
     end.
all: unfold lines_of.
- (* int() fails *)
  right.
  match goal with
  | E : py_index (Str.splitlines _) 0 = Return ?l |- _ =>
      unfold py_index in E;
      destruct (Str.splitlines (Str.strip output)) as [| first others];
      [discriminate E |]; injection E as ->; exists l, others
  end.
  split; [reflexivity |].
  match goal with
  | L : (String.length _ <? 3)%nat = false |- _ =>
      apply Nat.ltb_ge in L; split; [exact L |]
  end.
  right.
  match goal with
  | E : py_index (Str.split _ _) 1 = Return ?f1, I : py_int _ = Raise _ |- _ =>
      unfold py_index in E; unfold py_int in I; exists f1;
      destruct (nth_error (Str.split "=" _) 1); [| discriminate E];
      injection E as ->;
      destruct (Str.to_int (Str.strip f1)); [discriminate I |];
      injection I as <-
  end.
  now repeat split.
- (* no "=" *)
  right.
  match goal with
  | E : py_index (Str.splitlines _) 0 = Return ?l |- _ =>
      unfold py_index in E;
      destruct (Str.splitlines (Str.strip output)) as [| first others];
      [discriminate E |]; injection E as ->; exists l, others
  end.
  split; [reflexivity |].
  match goal with
  | L : (String.length _ <? 3)%nat = false |- _ =>
      apply Nat.ltb_ge in L; split; [exact L |]
  end.
  left.
  match goal with
  | E : py_index (Str.split _ _) 1 = Raise _ |- _ =>
      apply py_index_raise in E; exact E
  end.
- (* no line *)
  left.
  match goal with
  | E : py_index (Str.splitlines _) 0 = Raise _ |- _ =>
      apply py_index_raise in E; destruct E as [E ->];
      destruct (Str.splitlines (Str.strip output)); [now split | discriminate E]
  end.
Qed.

(** The converse: each of the three situations makes the decoder raise. *)
Lemma get_properties_raise_intro (output : string) :
  (2 <= String.length output)%nat ->
  (lines_of output = [] ->
   get_properties REGEX_WINDOW_search (Some output) = Raise IndexError)
  /\ (forall line0 rest,
         lines_of output = line0 :: rest ->
         (3 <= String.length line0)%nat ->
         (nth_error (Str.split "=" line0) 1 = None ->
          get_properties REGEX_WINDOW_search (Some output) = Raise IndexError)
         /\ (forall field,
                nth_error (Str.split "=" line0) 1 = Some field ->
                Str.to_int (Str.strip field) = None ->
                get_properties REGEX_WINDOW_search (Some output)
                = Raise ValueError)).
Proof.
intros Hout.
assert (E1 : Str.is_empty output = false).
{ destruct output; [simpl in Hout; lia | reflexivity]. }
assert (E2 : exists c0, str_index output 0 = Return c0).
{ destruct output as [| c0 o]; [simpl in Hout; lia | now exists c0]. }
assert (E3 : (String.length output <? 2)%nat = false).
{ apply Nat.ltb_ge. lia. }
assert (E4 : exists c1, str_index output 1 = Return c1).
{ destruct output as [| c0 [| c1 o]]; simpl in Hout; try lia. now exists c1. }
destruct E2 as [c0 E2]. destruct E4 as [c1 E4].
split.
- intros Hlines. unfold get_properties. rewrite E1, E2. cbn [bind].
  rewrite E3, E4. cbn [bind].
  change (Str.splitlines (Str.strip output)) with (lines_of output).
  now rewrite Hlines.
- intros line0 rest Hlines Hlen. apply Nat.ltb_ge in Hlen. split.
  + intros Hnone. unfold get_properties. rewrite E1, E2. cbn [bind].
    rewrite E3, E4. cbn [bind].
    change (Str.splitlines (Str.strip output)) with (lines_of output).
    rewrite Hlines. cbn [py_index nth_error bind]. rewrite Hlen.
    unfold py_index. now rewrite Hnone.
  + intros field Hfield Hint. unfold get_properties. rewrite E1, E2.
    cbn [bind]. rewrite E3, E4. cbn [bind].
    change (Str.splitlines (Str.strip output)) with (lines_of output).
    rewrite Hlines. cbn [py_index nth_error bind]. rewrite Hlen.
    unfold py_index. rewrite Hfield. cbn [bind].
    unfold py_int. now rewrite Hint.
Qed.

Lemma first_is_one (output : string) (c : ascii) :
  str_index output 0 = Return c -> prefix "1" output = Ascii.eqb c "1".
Proof.
destruct output as [| a o]; [discriminate |].
unfold str_index. cbn [String.get]. intros H. injection H as ->.
cbn [prefix]. destruct (ascii_dec "1" c) as [<- | N].
- destruct o; reflexivity.
- symmetry. apply Ascii.eqb_neq. congruence.
Qed.

Lemma get_properties_flags (output : string) (p : properties) :
  get_properties REGEX_WINDOW_search (Some output) = Return p ->
  screen_on p = Some (prefix "1" output)
  /\ awake p = Some (second_is_one output).
Proof.
intros H. unfold get_properties in H. cbv zeta in H.
repeat decode_step H.
all: injection H as <-; unfold screen_on, awake.
all: try match goal with
         | E : str_index _ 0 = Return _ |- _ =>
             rewrite (first_is_one _ _ E)
         end.
all: try match goal with
         | E : str_index _ 1 = Return _ |- _ =>
             unfold second_is_one; unfold str_index in E;
             destruct (String.get 1 _); [| discriminate E];
             injection E as ->
         end.
all: try (split; reflexivity).
- destruct output; [now split | discriminate].
- split; [reflexivity |]. unfold second_is_one.
  match goal with
  | L : (String.length ?o <? 2)%nat = true |- _ =>
      apply Nat.ltb_lt in L; destruct o as [| c0 [| c1 o']];
      [reflexivity | reflexivity | simpl in L; lia]
  end.
Qed.

Lemma get_properties_wake_lock (output line0 : string) (rest : list string)
      (p : properties) :
  get_properties REGEX_WINDOW_search (Some output) = Return p ->
  lines_of output = line0 :: rest ->
  ((String.length line0 < 3)%nat -> wake_lock_size p = Some (-1)%Z)
  /\ ((3 <= String.length line0)%nat ->
      exists field n,
        nth_error (Str.split "=" line0) 1 = Some field
        /\ Str.to_int (Str.strip field) = Some n
        /\ wake_lock_size p = Some n).
Proof.
intros H Hlines. unfold lines_of in Hlines.
unfold get_properties in H. cbv zeta in H.
repeat decode_step H.
all: injection H as <-; unfold wake_lock_size.
all: try (split; [reflexivity |]).
all: try match goal with
         | E : py_index (Str.splitlines _) 0 = Return _ |- _ =>
             rewrite Hlines in E; cbn [py_index nth_error] in E;
             injection E as <-
         end.
all: try match goal with
         | L : (String.length _ <? 3)%nat = true |- _ =>
             apply Nat.ltb_lt in L; intros; lia
         end.
all: try match goal with
         | L : (String.length _ <? 3)%nat = false |- _ /\ _ =>
             apply Nat.ltb_ge in L; split; [intros; lia | intros _]
         end.
all: try match goal with
         | E : py_index (Str.split _ _) 1 = Return ?f1,
           I : py_int _ = Return ?n |- _ =>
             unfold py_index in E; unfold py_int in I; exists f1, n;
             destruct (nth_error (Str.split "=" _) 1); [| discriminate E];
             injection E as ->;
             destruct (Str.to_int (Str.strip f1)); [| discriminate I];
             injection I as ->; now repeat split
         end.
- (* the empty output has no line *)
  destruct output; [discriminate Hlines | discriminate].
- (* an output of one character *)
  match goal with
  | L : (String.length ?o <? 2)%nat = true |- _ =>
      apply Nat.ltb_lt in L;
      pose proof (splitlines_head_length _ _ _ Hlines);
      pose proof (strip_length o); intros; lia
  end.
Qed.

End RaiseFacts.

Lemma splitlines_nil (s : string) : Str.splitlines s = [] <-> s = ""%string.
Proof.
split; [| now intros ->].
destruct s as [| c s]; [reflexivity |]. cbn [Str.splitlines].
destruct (Str.is_linebreak c).
- destruct s as [| c' s']; [discriminate |].
  destruct ((Str.code c =? 13)%N && (Str.code c' =? 10)%N); discriminate.
- destruct (Str.splitlines s); discriminate.
Qed.

(** X1: on a present output [get_properties] raises in three situations
    and in no other: the output has two or more characters and is blank
    ([IndexError]); or the first line of the stripped output has three or
    more characters and holds no ["="] ([IndexError]); or what follows its
    first ["="], up to the next one, is once stripped nothing that [int]
    accepts: not a decimal literal, or one of more than 4300 digits
    ([ValueError]).  A [TypeError] is never raised. *)
Theorem get_properties_raises_iff
        (ws : string -> option app_dict) (output : string) (e : exn) :
  get_properties ws (Some output) = Raise e
  <-> (2 <= String.length output)%nat
      /\ ((Str.strip output = ""%string /\ e = IndexError)
          \/ exists line0 rest,
            lines_of output = line0 :: rest
            /\ (3 <= String.length line0)%nat
            /\ ((Str.contains "=" line0 = false /\ e = IndexError)
                \/ exists field,
                  nth_error (Str.split "=" line0) 1 = Some field
                  /\ Str.to_int (Str.strip field) = None
                  /\ e = ValueError)).
Proof.
split.
- intros H. destruct (get_properties_raise_inv ws _ _ H) as [Hlen Hcases].
  split; [exact Hlen |].
  destruct Hcases as [[Hl He] | [line0 [rest [Hl [H3 Hc]]]]].
  + left. split; [now apply splitlines_nil | exact He].
  + right. exists line0, rest. split; [exact Hl |]. split; [exact H3 |].
    destruct Hc as [[Hn He] | Hf]; [left | now right].
    split; [now apply split_second | exact He].
- intros [Hlen Hcases].
  destruct (get_properties_raise_intro ws output Hlen) as [Hblank Hline].
  destruct Hcases as [[Hs ->] | [line0 [rest [Hl [H3 Hc]]]]].
  + apply Hblank. unfold lines_of. now rewrite Hs.
  + destruct (Hline _ _ Hl H3) as [Hno Hbad].
    destruct Hc as [[Hn ->] | [field [Hf [Hi ->]]]].
    * apply Hno. now apply split_second.
    * exact (Hbad _ Hf Hi).
Qed.

Lemma get_properties_raises_iff_witness :
  (2 <= String.length "11Wake Locks: size=two")%nat
  /\ lines_of "11Wake Locks: size=two" = ["11Wake Locks: size=two"%string]
  /\ nth_error (Str.split "=" "11Wake Locks: size=two") 1 = Some "two"%string
  /\ Str.to_int (Str.strip "two") = None
  /\ get_properties no_window (Some "11Wake Locks: size=two") = Raise ValueError.
Proof.
split; [simpl; lia |]. split; [reflexivity |]. split; [reflexivity |].
split; [reflexivity |].
apply (proj2 (get_properties_raises_iff no_window "11Wake Locks: size=two"
                                        ValueError)).
split; [simpl; lia |]. right.
exists "11Wake Locks: size=two"%string, []. split; [reflexivity |].
split; [simpl; lia |]. right. exists "two"%string. now repeat split.
Defined.

(** X2: whenever [get_properties] returns on a present output, the screen
    flag is true exactly when the first character of the raw output is
    ["1"] and awake exactly when the second is; the flags are read from the
    raw output, before it is stripped. *)
Theorem get_properties_reads_flags
        (ws : string -> option app_dict) (output : string) (p : properties) :
  get_properties ws (Some output) = Return p ->
  screen_on p = Some (prefix "1" output)
  /\ awake p = Some (second_is_one output).
Proof. apply get_properties_flags. Qed.

Lemma get_properties_reads_flags_witness :
  exists p,
    get_properties no_window (Some full_dump) = Return p
    /\ screen_on p = Some true /\ awake p = Some true.
Proof.
eexists. split; [reflexivity |].
exact (get_properties_reads_flags no_window full_dump _ eq_refl).
Defined.

(** ** The reported state *)

Lemma scanned_state_not_off (audio_output : string) :
  scanned_state audio_output <> STATE_OFF.
Proof.
unfold scanned_state.
destruct (Str.contains "started" audio_output); [discriminate |].
destruct (Str.contains "paused" audio_output); discriminate.
Qed.

Lemma update_of_on (p : properties) :
  screen_on p = Some true ->
  audio_state p <> Some STATE_OFF ->
  st_state (update_of p) <> STATE_OFF.
Proof.
intros Hs Ha. unfold update_of. rewrite Hs. cbn [py_not negb st_state].
destruct (audio_state p) as [[| | |] |]; try discriminate; [now elim Ha |].
destruct (py_not (awake p)); [discriminate |].
destruct (wake_lock_size p) as [[| [q | q |] | q] |]; discriminate.
Qed.

(** X3: [update] reports Off exactly for the outputs that do not start with
    ["1"] (and for an absent output): when the screen flag is read as true
    the state is Idle, Playing or Paused, whatever the rest of the output
    holds. *)
Theorem update_off_iff
        (ws : string -> option app_dict) (output : string) (st : status) :
  update ws (Some output) = Return st ->
  (st_state st = STATE_OFF <-> prefix "1" output = false).
Proof.
unfold update. intros H.
destruct (get_properties ws (Some output)) as [p | e] eqn:E; [| discriminate].
cbn [bind] in H. injection H as <-.
destruct (get_properties_flags ws _ _ E) as [Hs _].
destruct (prefix "1" output).
- split; [| discriminate]. intros Hoff. exfalso.
  apply (update_of_on p Hs); [| exact Hoff].
  intros Ha.
  destruct (get_properties_audio ws _ _ _ E Ha) as [_ [Hscan _]].
  exact (scanned_state_not_off _ (eq_sym Hscan)).
- split; [reflexivity | intros _].
  unfold update_of. now rewrite Hs.
Qed.

Lemma update_off_iff_witness :
  exists st,
    update no_window (Some idle_dump) = Return st
    /\ prefix "1" idle_dump = true
    /\ st_state st <> STATE_OFF.
Proof.
eexists. split; [reflexivity |]. split; [reflexivity |].
intros Hoff.
pose proof (proj1 (update_off_iff no_window idle_dump _ eq_refl) Hoff) as H.
discriminate H.
Defined.

(** X4: on every output shorter than 2 characters [update] returns without
    raising; the state is Idle for the output ["1"] (screen on, not awake)
    and Off for every other one, and the current app, the device, the
    muted flag and the volume are unset. *)
Theorem update_short_output
        (ws : string -> option app_dict) (output : string) :
  (String.length output < 2)%nat ->
  update ws (Some output)
  = Return (Build_status (if String.eqb output "1" then STATE_IDLE
                          else STATE_OFF)
                         None None None None).
Proof.
intros H. destruct output as [| c [| c' o]]; [reflexivity | | simpl in H; lia].
unfold update, get_properties. cbn [Str.is_empty str_index String.get bind].
cbn. now destruct (Ascii.eqb c "1").
Qed.

Lemma update_short_output_witness :
  (String.length "1" < 2)%nat
  /\ update no_window (Some "1")
     = Return (Build_status STATE_IDLE None None None None).
Proof.
split; [simpl; lia |].
apply (update_short_output no_window "1"). simpl; lia.
Defined.

(** ** The wake-lock count *)

Lemma digit_facts (c : ascii) :
  Str.is_digit c = true ->
  Str.is_space c = false
  /\ Ascii.eqb c "=" = false
  /\ (Str.code c =? 43)%N = false
  /\ (Str.code c =? 45)%N = false
  /\ (0 <= Str.digit_value c <= 9)%Z.
Proof.
destruct c as [[|] [|] [|] [|] [|] [|] [|] [|]]; vm_compute;
  try discriminate; intros _; repeat split; discriminate.
Qed.

Lemma all_chars_impl (f g : ascii -> bool) (s : string) :
  (forall c, f c = true -> g c = true) ->
  Str.all_chars f s = true -> Str.all_chars g s = true.
Proof.
intros Hfg. induction s as [| c s IH]; simpl; [reflexivity |].
intros H. apply andb_true_iff in H as [Hc Hs].
now rewrite (Hfg _ Hc), (IH Hs).
Qed.

Lemma digits_no_equals (d : string) :
  Str.all_chars Str.is_digit d = true -> Str.contains "=" d = false.
Proof.
intros H. apply all_chars_contains.
apply (all_chars_impl Str.is_digit); [| exact H].
intros c Hc. destruct (digit_facts c Hc) as [_ [He _]]. now rewrite He.
Qed.

Lemma split_absent (c : ascii) (s : string) :
  Str.contains (String c "") s = false -> Str.split c s = [s].
Proof.
induction s as [| a s IH]; cbn [Str.split Str.contains]; [reflexivity |].
intros H. apply orb_false_iff in H as [Hp Hs].
destruct (Ascii.eqb a c) eqn:E.
- apply Ascii.eqb_eq in E. subst a. simpl in Hp.
  destruct (ascii_dec c c) as [_ | N]; [| now elim N].
  destruct s; discriminate.
- now rewrite (IH Hs).
Qed.

Lemma split_at_first (c : ascii) (pre post : string) :
  Str.contains (String c "") pre = false ->
  Str.split c (pre ++ String c post) = pre :: Str.split c post.
Proof.
induction pre as [| a pre IH]; cbn [Str.split Str.contains append].
- intros _. now rewrite Ascii.eqb_refl.
- intros H. apply orb_false_iff in H as [Hp Hs].
  destruct (Ascii.eqb a c) eqn:E.
  + apply Ascii.eqb_eq in E. subst a. simpl in Hp.
    destruct (ascii_dec c c) as [_ | N]; [| now elim N].
    destruct pre; discriminate.
  + now rewrite (IH Hs).
Qed.

Lemma strip_digits (d : string) :
  Str.all_chars Str.is_digit d = true -> Str.strip d = d.
Proof.
intros H. unfold Str.strip.
assert (Hl : Str.lstrip d = d).
{ destruct d as [| c d]; [reflexivity |]. simpl in H |- *.
  apply andb_true_iff in H as [Hc _].
  destruct (digit_facts c Hc) as [Hs _]. now rewrite Hs. }
rewrite Hl. induction d as [| c d IH]; [reflexivity |].
simpl in H. apply andb_true_iff in H as [Hc Hd].
assert (Hl' : Str.lstrip d = d).
{ destruct d as [| c' d']; [reflexivity |]. simpl in Hd |- *.
  apply andb_true_iff in Hd as [Hc' _].
  destruct (digit_facts c' Hc') as [Hs _]. now rewrite Hs. }
cbn [Str.rstrip]. rewrite (IH Hd Hl').
destruct (digit_facts c Hc) as [Hs _]. now rewrite Hs, andb_false_r.
Qed.

Lemma int_digits_all (s : string) :
  Str.all_chars Str.is_digit s = true ->
  forall acc b,
    s <> ""%string \/ b = true ->
    Str.int_digits acc b s = Some (Str.digits_value acc s).
Proof.
induction s as [| c s IH]; intros H acc b Hb.
- destruct Hb as [Hb | ->]; [now elim Hb | reflexivity].
- simpl in H. apply andb_true_iff in H as [Hc Hs].
  cbn [Str.int_digits Str.digits_value]. rewrite Hc.
  apply (IH Hs). now right.
Qed.

(** A run of decimal digits has as many digits as characters. *)
Lemma count_digits_all (d : string) :
  Str.all_chars Str.is_digit d = true ->
  Str.count_digits d = Z.of_nat (String.length d).
Proof.
induction d as [| c d IH]; intros H; [reflexivity |].
simpl in H. apply andb_true_iff in H as [Hc Hd].
cbn [Str.count_digits String.length]. rewrite Hc, (IH Hd). lia.
Qed.

(** [int(d)] on a non-empty run of at most [Str.max_str_digits] decimal
    digits is its decimal value. *)
Lemma to_int_digits (d : string) :
  d <> ""%string ->
  Str.all_chars Str.is_digit d = true ->
  (Z.of_nat (String.length d) <= Str.max_str_digits)%Z ->
  Str.to_int d = Some (Str.digits_value 0 d).
Proof.
intros Hne H Hlen. unfold Str.to_int.
rewrite (count_digits_all _ H).
apply Z.leb_le in Hlen. rewrite Hlen. clear Hlen.
destruct d as [| c d]; [now elim Hne |].
assert (Hc : Str.is_digit c = true)
  by (simpl in H; now apply andb_true_iff in H as [Hc _]).
destruct (digit_facts c Hc) as [_ [_ [Hp [Hm _]]]].
unfold Str.int_literal. rewrite Hp, Hm.
now rewrite (int_digits_all _ H 0%Z false (or_introl Hne)).
Qed.

(** A run of more than [Str.max_str_digits] decimal digits is no literal
    that [int] accepts. *)
Lemma to_int_too_long (d : string) :
  Str.all_chars Str.is_digit d = true ->
  (Str.max_str_digits < Z.of_nat (String.length d))%Z ->
  Str.to_int d = None.
Proof.
intros H Hlen. unfold Str.to_int.
rewrite (count_digits_all _ H).
apply Z.leb_gt in Hlen. rewrite Hlen.
now destruct (Str.int_literal d).
Qed.

(** X5: when the first line of the stripped output has three or more
    characters and reads [pre=digits], with no ["="] in [pre] and [digits]
    a non-empty run of at most 4300 decimal digits, [get_properties]
    returns and the wake-lock count is the decimal value of [digits]; a
    longer run of digits makes [int] and so [get_properties] raise
    [ValueError]. *)
Theorem wake_lock_size_parsed
        (ws : string -> option app_dict)
        (output line0 : string) (rest : list string) (pre digits : string) :
  lines_of output = line0 :: rest ->
  (3 <= String.length line0)%nat ->
  line0 = (pre ++ "=" ++ digits)%string ->
  Str.contains "=" pre = false ->
  digits <> ""%string ->
  Str.all_chars Str.is_digit digits = true ->
  ((Z.of_nat (String.length digits) <= 4300)%Z ->
   exists p,
     get_properties ws (Some output) = Return p
     /\ wake_lock_size p = Some (Str.digits_value 0 digits))
  /\ ((4300 < Z.of_nat (String.length digits))%Z ->
      get_properties ws (Some output) = Raise ValueError).
Proof.
intros Hlines Hlen Hline Hpre Hne Hdig.
assert (Hfield : nth_error (Str.split "=" line0) 1 = Some digits).
{ rewrite Hline. cbn [append]. rewrite (split_at_first _ _ _ Hpre).
  now rewrite (split_absent _ _ (digits_no_equals _ Hdig)). }
split.
- intros Hshort.
  assert (Hint : Str.to_int (Str.strip digits)
                 = Some (Str.digits_value 0 digits)).
  { rewrite (strip_digits _ Hdig). now apply to_int_digits. }
  destruct (get_properties ws (Some output)) as [p | e] eqn:E.
  + exists p. split; [reflexivity |].
    destruct (get_properties_wake_lock ws _ _ _ _ E Hlines) as [_ Hw].
    destruct (Hw Hlen) as [field [n [Hf [Hi ->]]]]. congruence.
  + exfalso.
    destruct (get_properties_raise_inv ws _ _ E)
      as [_ [[Hnil _] | [l0 [r0 [Hl [_ Hc]]]]]]; [congruence |].
    assert (l0 = line0) by congruence. subst l0.
    destruct Hc as [[Hn _] | [field [Hf [Hi _]]]]; congruence.
- intros Hlong.
  assert (Hint : Str.to_int (Str.strip digits) = None).
  { rewrite (strip_digits _ Hdig). now apply to_int_too_long. }
  assert (Hout : (2 <= String.length output)%nat).
  { pose proof (splitlines_head_length _ _ _ Hlines).
    pose proof (strip_length output). lia. }
  destruct (get_properties_raise_intro ws output Hout) as [_ Hr].
  destruct (Hr line0 rest Hlines Hlen) as [_ Hv].
  exact (Hv digits Hfield Hint).
Qed.

Lemma wake_lock_size_parsed_witness :
  lines_of "10Wake Locks: size=12" = ["10Wake Locks: size=12"%string]
  /\ Str.contains "=" "10Wake Locks: size" = false
  /\ Str.all_chars Str.is_digit "12" = true
  /\ (Z.of_nat (String.length "12") <= 4300)%Z
  /\ exists p,
      get_properties no_window (Some "10Wake Locks: size=12") = Return p
      /\ wake_lock_size p = Some 12%Z.
Proof.
split; [reflexivity |]. split; [reflexivity |]. split; [reflexivity |].
split; [simpl; lia |].
exact (proj1 (wake_lock_size_parsed no_window "10Wake Locks: size=12"
                "10Wake Locks: size=12" [] "10Wake Locks: size" "12"
                eq_refl ltac:(simpl; lia) eq_refl eq_refl
                ltac:(discriminate) eq_refl)
             ltac:(simpl; lia)).
Defined.

(** ** Trailing blanks *)

Lemma rstrip_blank (w : string) :
  Str.all_chars Str.is_space w = true -> Str.rstrip w = ""%string.
Proof.
induction w as [| c w IH]; [reflexivity |]. simpl.
intros H. apply andb_true_iff in H as [Hc Hw]. now rewrite (IH Hw), Hc.
Qed.

Lemma rstrip_append_blank (s w : string) :
  Str.all_chars Str.is_space w = true ->
  Str.rstrip (s ++ w) = Str.rstrip s.
Proof.
intros H. induction s as [| c s IH]; simpl.
- now apply rstrip_blank.
- now rewrite IH.
Qed.

Lemma lstrip_blank (w : string) :
  Str.all_chars Str.is_space w = true -> Str.lstrip w = ""%string.
Proof.
induction w as [| c w IH]; [reflexivity |]. simpl.
intros H. apply andb_true_iff in H as [Hc Hw]. now rewrite Hc, (IH Hw).
Qed.

Lemma strip_append_blank (s w : string) :
  Str.all_chars Str.is_space w = true ->
  Str.strip (s ++ w) = Str.strip s.
Proof.
intros H. unfold Str.strip. induction s as [| c s IH]; simpl.
- now rewrite (lstrip_blank _ H).
- destruct (Str.is_space c); [exact IH |].
  now rewrite <- (rstrip_append_blank (String c s) w H).
Qed.

(** X6: blanks (spaces, tabs, line ends) added at the end of an output of
    two or more characters change nothing: [get_properties] and [update]
    give the same result, or raise the same exception, as on the output
    itself. *)
Theorem trailing_blanks_ignored
        (ws : string -> option app_dict) (output w : string) :
  (2 <= String.length output)%nat ->
  Str.all_chars Str.is_space w = true ->
  get_properties ws (Some (output ++ w)%string) = get_properties ws (Some output)
  /\ update ws (Some (output ++ w)%string) = update ws (Some output).
Proof.
intros Hlen Hw.
assert (Hget : get_properties ws (Some (output ++ w)%string)
               = get_properties ws (Some output)).
{ destruct output as [| c0 [| c1 o]]; simpl in Hlen; try lia.
  unfold get_properties.
  rewrite (strip_append_blank (String c0 (String c1 o)) w Hw).
  reflexivity. }
split; [exact Hget |]. unfold update. now rewrite Hget.
Qed.

Lemma trailing_blanks_ignored_witness :
  (2 <= String.length full_dump)%nat
  /\ Str.all_chars Str.is_space (nl ++ "  " ++ nl) = true
  /\ get_properties no_window (Some (full_dump ++ (nl ++ "  " ++ nl))%string)
     = get_properties no_window (Some full_dump).
Proof.
split; [vm_compute; lia |]. split; [reflexivity |].
exact (proj1 (trailing_blanks_ignored no_window full_dump (nl ++ "  " ++ nl)
                ltac:(vm_compute; lia) eq_refl)).
Defined.

(** ** The properties of the class and the decoder *)

Lemma property_device_eq (audio : string) :
  Property.device (Some audio)
  = if Str.is_empty audio then Return None
    else match first_match BLOCK_REGEX_PATTERN audio with
         | None => Raise IndexError
         | Some b =>
             match block_device b with
             | None => Raise IndexError
             | Some d => Return (Some d)
             end
         end.
Proof.
unfold Property.device, block_device, first_match, py_index.
destruct (Str.is_empty audio); [reflexivity |].
destruct (Re.findall true BLOCK_REGEX_PATTERN audio) as [| b bs];
  [reflexivity |].
cbn [nth_error hd_error bind].
now destruct (Re.findall true DEVICE_REGEX_PATTERN b).
Qed.

Lemma property_muted_eq (audio : string) :
  Property.muted (Some audio)
  = if Str.is_empty audio then Return None
    else match first_match BLOCK_REGEX_PATTERN audio with
         | None => Raise IndexError
         | Some b =>
             match block_muted b with
             | None => Raise IndexError
             | Some m => Return (Some m)
             end
         end.
Proof.
unfold Property.muted, block_muted, first_match, py_index.
destruct (Str.is_empty audio); [reflexivity |].
destruct (Re.findall true BLOCK_REGEX_PATTERN audio) as [| b bs];
  [reflexivity |].
cbn [nth_error hd_error bind].
now destruct (Re.findall true MUTED_REGEX_PATTERN b).
Qed.

Lemma property_volume_eq (audio : string) :
  Property.volume (Some audio)
  = if Str.is_empty audio then Return None
    else match first_match BLOCK_REGEX_PATTERN audio with
         | None => Raise IndexError
         | Some b =>
             match block_volume b with
             | None => Raise IndexError
             | Some v => Return (Some v)
             end
         end.
Proof.
unfold Property.volume, block_volume, block_device, first_match, py_index.
destruct (Str.is_empty audio); [reflexivity |].
destruct (Re.findall true BLOCK_REGEX_PATTERN audio) as [| b bs];
  [reflexivity |].
cbn [nth_error hd_error bind].
destruct (Re.findall true DEVICE_REGEX_PATTERN b) as [| d ds];
  [reflexivity |].
cbn [nth_error hd_error bind].
now destruct (Re.findall true (Re.lit d ++ VOLUME_REGEX_PATTERN) b).
Qed.

Lemma first_match_empty (p : Re.pattern) : first_match p "" = None.
Proof. reflexivity. Qed.

(** A property and a decoded field that read the same function of the
    block agree on the values they give. *)
Lemma property_field_agree {A : Type} (audio : string)
      (read : string -> option A) (prop : result (option A))
      (field : option A) :
  prop = (if Str.is_empty audio then Return None
          else match first_match BLOCK_REGEX_PATTERN audio with
               | None => Raise IndexError
               | Some b =>
                   match read b with
                   | None => Raise IndexError
                   | Some x => Return (Some x)
                   end
               end) ->
  match first_match BLOCK_REGEX_PATTERN audio with
  | None => field = None
  | Some b => field = read b
  end ->
  forall x, prop = Return (Some x) <-> field = Some x.
Proof.
intros -> Hf x. destruct audio as [| c audio].
- rewrite first_match_empty in Hf. subst field. cbn [Str.is_empty].
  split; discriminate.
- cbn [Str.is_empty].
  destruct (first_match BLOCK_REGEX_PATTERN (String c audio)) as [b |].
  + subst field. destruct (read b); split; congruence.
  + subst field. split; discriminate.
Qed.

(** X8: when the decoder has reached the audio dump, its device, muted flag
    and volume are exactly the values that the [device], [muted] and
    [volume] properties return on the same dump; where a property raises
    or returns [None], the decoded field is unset. *)
Theorem properties_agree_with_decoder
        (ws : string -> option app_dict) (output : string) (p : properties) :
  get_properties ws (Some output) = Return p ->
  audio_state p <> None ->
  (forall d, Property.device (Some (audio_output_of output)) = Return (Some d)
             <-> device p = Some d)
  /\ (forall m, Property.muted (Some (audio_output_of output)) = Return (Some m)
                <-> muted p = Some m)
  /\ (forall v, Property.volume (Some (audio_output_of output)) = Return (Some v)
                <-> volume p = Some v).
Proof.
intros H Ha.
destruct (audio_state p) as [a |] eqn:E; [clear Ha | now elim Ha].
destruct (get_properties_audio ws _ _ _ H E) as [_ [_ Hb]].
split; [| split].
- apply (property_field_agree (audio_output_of output) block_device
                              _ (device p) (property_device_eq _)).
  destruct (first_match BLOCK_REGEX_PATTERN (audio_output_of output));
    tauto.
- apply (property_field_agree (audio_output_of output) block_muted
                              _ (muted p) (property_muted_eq _)).
  destruct (first_match BLOCK_REGEX_PATTERN (audio_output_of output));
    tauto.
- apply (property_field_agree (audio_output_of output) block_volume
                              _ (volume p) (property_volume_eq _)).
  destruct (first_match BLOCK_REGEX_PATTERN (audio_output_of output));
    tauto.
Qed.

Lemma properties_agree_with_decoder_witness :
  exists p,
    get_properties no_window (Some full_dump) = Return p
    /\ audio_state p <> None
    /\ Property.device (Some (audio_output_of full_dump))
       = Return (Some "speaker"%string)
    /\ device p = Some "speaker"%string.
Proof.
eexists. split; [reflexivity |]. split; [discriminate |].
split; [reflexivity |].
exact (proj1 (proj1 (properties_agree_with_decoder no_window full_dump _
                       eq_refl ltac:(discriminate))
                    "speaker"%string)
             eq_refl).
Defined.

(** X9: on an absent or empty dump the [device], [muted] and [volume]
    properties return [None] and in no other case; they raise nothing but
    [IndexError]; and on a non-empty dump that lacks ["STREAM_MUSIC"] or
    lacks ["- STREAM"] each of them raises [IndexError]. *)
Theorem properties_raise_without_block :
  (forall output,
      (Property.device output = Return None
       <-> output = None \/ output = Some ""%string)
      /\ (Property.muted output = Return None
          <-> output = None \/ output = Some ""%string)
      /\ (Property.volume output = Return None
          <-> output = None \/ output = Some ""%string))
  /\ (forall output e,
         Property.device output = Raise e \/ Property.muted output = Raise e
         \/ Property.volume output = Raise e ->
         e = IndexError)
  /\ (forall audio,
         audio <> ""%string ->
         Str.contains "STREAM_MUSIC" audio = false
         \/ Str.contains "- STREAM" audio = false ->
         Property.device (Some audio) = Raise IndexError
         /\ Property.muted (Some audio) = Raise IndexError
         /\ Property.volume (Some audio) = Raise IndexError).
Proof.
split; [| split].
- intros [audio |].
  + rewrite property_device_eq, property_muted_eq, property_volume_eq.
    destruct audio as [| c audio]; cbn [Str.is_empty].
    * repeat split; auto.
    * destruct (first_match BLOCK_REGEX_PATTERN (String c audio)) as [b |].
      -- destruct (block_device b), (block_muted b), (block_volume b);
           repeat split; try discriminate;
           intros [H | H]; discriminate H.
      -- repeat split; try discriminate; intros [H | H]; discriminate H.
  + repeat split; auto.
- intros [audio |] e H.
  + rewrite property_device_eq, property_muted_eq, property_volume_eq in H.
    destruct (Str.is_empty audio);
      [destruct H as [H | [H | H]]; discriminate H |].
    destruct (first_match BLOCK_REGEX_PATTERN audio) as [b |].
    * destruct (block_device b), (block_muted b), (block_volume b);
        destruct H as [H | [H | H]]; congruence.
    * destruct H as [H | [H | H]]; congruence.
  + destruct H as [H | [H | H]]; discriminate H.
- intros audio Hne Hmark.
  rewrite property_device_eq, property_muted_eq, property_volume_eq.
  rewrite (stream_block_absent _ Hmark).
  destruct audio; [now elim Hne | now repeat split].
Qed.

Lemma properties_raise_without_block_witness :
  "Audio routes: none"%string <> ""%string
  /\ Str.contains "STREAM_MUSIC" "Audio routes: none" = false
  /\ Property.device (Some "Audio routes: none"%string) = Raise IndexError
  /\ Property.muted (Some "Audio routes: none"%string) = Raise IndexError
  /\ Property.volume (Some "Audio routes: none"%string) = Raise IndexError.
Proof.
split; [discriminate |]. split; [reflexivity |].
exact (proj2 (proj2 properties_raise_without_block) "Audio routes: none"%string
             ltac:(discriminate) (or_introl eq_refl)).
Defined.

(** ** The static properties *)

Lemma code_is_lf (c : ascii) : (Str.code c =? 10)%N = Ascii.eqb c "010".
Proof.
destruct c as [[|] [|] [|] [|] [|] [|] [|] [|]]; reflexivity.
Qed.

Lemma no_line_feed (u : string) :
  Str.all_chars (Re.atom_matches false Re.Dot) u = true ->
  Str.contains nl u = false.
Proof.
intros H. apply all_chars_contains.
apply (all_chars_impl (Re.atom_matches false Re.Dot)); [| exact H].
intros c Hc. cbn in Hc. now rewrite <- code_is_lf.
Qed.

(** The group of [PROP_REGEX_PATTERN] holds no line feed and no ["]"]. *)
Lemma prop_group (s : string) (r : option string * string) :
  Re.match_here false PROP_REGEX_PATTERN s = Some r ->
  Str.contains nl (Re.group_text r) = false
  /\ Str.contains "]" (Re.group_text r) = false.
Proof.
unfold PROP_REGEX_PATTERN. cbn [Re.match_here]. intros H.
destruct (lazy_star_sound _ _ _ _ _ _ H) as [u [v [r0 [_ [_ [Hk [-> _]]]]]]].
cbn [Re.with_group]. clear H.
destruct v as [| c v]; [discriminate |].
destruct (Re.atom_matches false (Re.Chr "[") c); [| discriminate].
destruct (lazy_star_sound _ _ _ _ _ _ Hk) as [g [w [r1 [_ [Hg [_ [Hr _]]]]]]].
assert (Hskip' : forall c0 s0,
           Re.match_here false [Re.One (Re.Chr "]")] (String c0 s0) = None ->
           negb (Ascii.eqb c0 "]") = true).
{ intros c0 s0. cbn [Re.match_here Re.atom_matches].
  destruct (Ascii.eqb c0 "]"); [discriminate | reflexivity]. }
destruct (lazy_star_group _ _ _ Hskip' _ _ _ Hk) as [t [Ht Hskip]].
rewrite Hr in Ht. cbn [Re.with_group fst append] in Ht.
injection Ht as <-.
rewrite Hr. cbn [Re.with_group Re.group_text fst append].
split; [now apply no_line_feed | now apply all_chars_contains].
Qed.

Lemma py_index_first (dotall : bool) (p : Re.pattern) (s x : string) :
  py_index (Re.findall dotall p s) 0 = Return x ->
  exists t r, Re.match_here dotall p t = Some r /\ x = Re.group_text r.
Proof.
unfold py_index, Re.findall. intros H.
destruct (Re.findall_from dotall p s 0) as [| g gs] eqn:E; [discriminate |].
cbn [nth_error] in H. injection H as ->.
destruct (findall_from_In dotall p x s 0) as [t [r [_ [Hm Hg]]]].
- rewrite E. now left.
- now exists t, r.
Qed.

Lemma key_lookup (key s x : string) :
  py_index (Re.findall false (Re.lit key ++ PROP_REGEX_PATTERN) s) 0 = Return x ->
  Str.contains nl x = false /\ Str.contains "]" x = false.
Proof.
intros H. destruct (py_index_first _ _ _ _ H) as [t [r [Hm ->]]].
destruct (match_here_lit _ _ _ _ _ Hm) as [s' [_ Hs']].
now apply prop_group in Hs'.
Qed.

Lemma dotted_key_lookup (a b s x : string) :
  py_index (Re.findall false
              (Re.lit a ++ [Re.One Re.Dot] ++ Re.lit b ++ PROP_REGEX_PATTERN)
              s) 0 = Return x ->
  Str.contains nl x = false /\ Str.contains "]" x = false.
Proof.
intros H. destruct (py_index_first _ _ _ _ H) as [t [r [Hm ->]]].
destruct (match_here_lit _ _ _ _ _ Hm) as [s' [_ Hs']].
change ([Re.One Re.Dot] ++ Re.lit b ++ PROP_REGEX_PATTERN)
  with (Re.One Re.Dot :: (Re.lit b ++ PROP_REGEX_PATTERN)) in Hs'.
cbn [Re.match_here] in Hs'.
destruct s' as [| c s']; [discriminate |].
destruct (Re.atom_matches false Re.Dot c); [| discriminate].
destruct (match_here_lit _ _ _ _ _ Hs') as [s'' [_ Hs'']].
now apply prop_group in Hs''.
Qed.

Lemma ether_lookup (s x : string) :
  py_index (Re.findall false WIFIMAC_REGEX_PATTERN s) 0 = Return x ->
  Str.contains nl x = false.
Proof.
intros H. destruct (py_index_first _ _ _ _ H) as [t [r [Hm ->]]].
unfold WIFIMAC_REGEX_PATTERN in Hm.
destruct (match_here_lit _ _ _ _ _ Hm) as [s' [_ Hs']].
change ([Re.LazyStar Re.Dot true] ++ Re.lit " brd")
  with (Re.LazyStar Re.Dot true :: Re.lit " brd") in Hs'.
cbn [Re.match_here] in Hs'.
destruct (lazy_star_sound _ _ _ _ _ _ Hs') as [u [v [r0 [_ [Hu [_ [-> _]]]]]]].
cbn [Re.with_group Re.group_text fst append]. now apply no_line_feed.
Qed.

(** X10: every field of a record returned by [get_device_properties] is a
    single line (it holds no line feed), and the serial number, the
    manufacturer, the model and the version hold no ["]"]: a value is
    never read across lines or past the closing bracket. *)
Theorem device_properties_fields
        (properties wifi_out : option string) (r : device_properties) :
  get_device_properties properties wifi_out = Return r ->
  Str.contains nl (wifimac r) = false
  /\ (Str.contains nl (serialno r) = false
      /\ Str.contains "]" (serialno r) = false)
  /\ (Str.contains nl (manufacturer r) = false
      /\ Str.contains "]" (manufacturer r) = false)
  /\ (Str.contains nl (model r) = false
      /\ Str.contains "]" (model r) = false)
  /\ (Str.contains nl (sw_version r) = false
      /\ Str.contains "]" (sw_version r) = false).
Proof.
unfold get_device_properties. intros H.
destruct properties as [props |]; [| discriminate]. cbn [expect_str bind] in H.
match type of H with
| bind ?w _ = _ => destruct w as [mac |] eqn:Emac; [| discriminate]
end.
cbn [bind] in H.
destruct (py_index (Re.findall false SERIALNO_REGEX_PATTERN props) 0)
  as [sn |] eqn:Esn; [| discriminate]. cbn [bind] in H.
destruct (py_index (Re.findall false MANUF_REGEX_PATTERN props) 0)
  as [mf |] eqn:Emf; [| discriminate]. cbn [bind] in H.
destruct (py_index (Re.findall false MODEL_REGEX_PATTERN props) 0)
  as [md |] eqn:Emd; [| discriminate]. cbn [bind] in H.
destruct (py_index (Re.findall false VERSION_REGEX_PATTERN props) 0)
  as [vs |] eqn:Evs; [| discriminate]. cbn [bind] in H.
injection H as <-. cbn [wifimac serialno manufacturer model sw_version].
split; [| split; [| split; [| split]]].
- destruct (Str.contains "wifimac" props).
  + exact (proj1 (key_lookup _ _ _ Emac)).
  + destruct wifi_out as [out |]; [| discriminate]. cbn [expect_str bind] in Emac.
    exact (ether_lookup _ _ Emac).
- exact (key_lookup _ _ _ Esn).
- exact (key_lookup _ _ _ Emf).
- exact (dotted_key_lookup _ _ _ _ Emd).
- exact (dotted_key_lookup _ _ _ _ Evs).
Qed.

Lemma device_properties_fields_witness :
  exists r,
    get_device_properties (Some getprop_dump) (Some wlan0_dump) = Return r
    /\ wifimac r = "aa:bb:cc:dd:ee:ff"%string
    /\ Str.contains nl (wifimac r) = false
    /\ Str.contains "]" (serialno r) = false.
Proof.
eexists. split; [reflexivity |]. split; [reflexivity |].
pose proof (device_properties_fields (Some getprop_dump) (Some wlan0_dump) _
              eq_refl) as [Hw [[_ Hs] _]].
split; [exact Hw | exact Hs].
Defined.

(** ** The value found for a key *)

Section FirstMatch.

Variable dotall : bool.

(** A lazy star stops at the first position where the rest of the pattern
    matches. *)
Lemma lazy_star_exact (k : string -> option (option string * string))
      (accepts : ascii -> bool) (group : bool) (v : string)
      (r0 : option string * string) :
  k v = Some r0 ->
  forall u text,
    Str.all_chars accepts u = true ->
    (forall u1 u2, u = (u1 ++ u2)%string -> u2 <> ""%string ->
                   k (u2 ++ v)%string = None) ->
    Re.lazy_star k accepts group (u ++ v)%string text
    = Some (Re.with_group group (text ++ u)%string r0).
Proof.
intros Hk. induction u as [| c u IH]; intros text Hu Hmin.
- cbn [append]. rewrite append_empty_r.
  destruct v as [| c v]; simpl; now rewrite Hk.
- simpl in Hu. apply andb_true_iff in Hu as [Hc Hu].
  cbn [append Re.lazy_star].
  pose proof (Hmin ""%string (String c u) eq_refl ltac:(discriminate)) as E.
  cbn [append] in E. rewrite E.
  rewrite Hc, (IH (Re.snoc text c) Hu).
  + now rewrite append_snoc.
  + intros u1 u2 -> Hne. exact (Hmin (String c u1) u2 eq_refl Hne).
Qed.

(** [findall] starts with the match at the first position where the
    pattern matches. *)
Lemma findall_from_first (p : Re.pattern) (t : string)
      (r : option string * string) :
  t <> ""%string ->
  Re.match_here dotall p t = Some r ->
  forall pre,
    (forall p1 p2, pre = (p1 ++ p2)%string -> p2 <> ""%string ->
                   Re.match_here dotall p (p2 ++ t)%string = None) ->
    exists gs,
      Re.findall_from dotall p (pre ++ t)%string 0 = Re.group_text r :: gs.
Proof.
intros Ht Hm. induction pre as [| c pre IH]; intros Hmin.
- cbn [append]. destruct t as [| c t]; [now elim Ht |].
  cbn [Re.findall_from]. rewrite Hm. eexists. reflexivity.
- cbn [append Re.findall_from].
  pose proof (Hmin ""%string (String c pre) eq_refl ltac:(discriminate)) as E.
  cbn [append] in E. rewrite E.
  apply IH. intros p1 p2 -> Hne. exact (Hmin (String c p1) p2 eq_refl Hne).
Qed.

End FirstMatch.

Lemma absent_char (x c : ascii) (u1 w : string) :
  Str.contains (String x "") (u1 ++ String c w) = false ->
  Ascii.eqb c x = false.
Proof.
intros H. destruct (Ascii.eqb c x) eqn:E; [| reflexivity].
apply Ascii.eqb_eq in E. subst c.
change (String x w) with (String x "" ++ w)%string in H.
now rewrite contains_append in H.
Qed.

Lemma absent_all_chars (x : ascii) (s : string) :
  Str.contains (String x "") s = false ->
  Str.all_chars (fun c => negb (Ascii.eqb c x)) s = true.
Proof.
induction s as [| c s IH]; cbn [Str.contains Str.all_chars]; [reflexivity |].
intros H. apply orb_false_iff in H as [Hp Hs]. rewrite (IH Hs), andb_true_r.
simpl in Hp. destruct (ascii_dec x c) as [<- | N].
- destruct s; discriminate.
- apply negb_true_iff, Ascii.eqb_neq. congruence.
Qed.

Lemma single_line_accepted (s : string) :
  Str.contains nl s = false ->
  Str.all_chars (Re.atom_matches false Re.Dot) s = true.
Proof.
intros H. apply (all_chars_impl (fun c => negb (Ascii.eqb c "010"))).
- intros c Hc. cbn. now rewrite code_is_lf.
- now apply absent_all_chars.
Qed.

(** [PROP_REGEX_PATTERN] on a text that reads [mid[value]post]. *)
Lemma prop_match (mid value post : string) :
  Str.contains "[" mid = false ->
  Str.contains nl mid = false ->
  Str.contains "]" value = false ->
  Str.contains nl value = false ->
  Re.match_here false PROP_REGEX_PATTERN
                (mid ++ "[" ++ value ++ "]" ++ post)%string
  = Some (Some value, post).
Proof.
intros Hmid Hmidl Hval Hvall.
unfold PROP_REGEX_PATTERN. cbn [Re.match_here].
assert (Hinner :
          Re.lazy_star (Re.match_here false [Re.One (Re.Chr "]")])
                       (Re.atom_matches false Re.Dot) true
                       (value ++ "]" ++ post)%string ""
          = Some (Some value, post)).
{ rewrite (lazy_star_exact _ _ true ("]" ++ post)%string (None, post)).
  - reflexivity.
  - reflexivity.
  - now apply single_line_accepted.
  - intros u1 [| c u2] Hu Hne; [now elim Hne |]. subst value.
    pose proof (absent_char _ _ _ _ Hval) as Hc.
    cbn [append Re.match_here Re.atom_matches]. now rewrite Hc. }
rewrite (lazy_star_exact _ _ false ("[" ++ value ++ "]" ++ post)%string
                         (Some value, post)).
- reflexivity.
- cbn [append Re.match_here Re.atom_matches]. rewrite Ascii.eqb_refl.
  exact Hinner.
- now apply single_line_accepted.
- intros u1 [| c u2] Hu Hne; [now elim Hne |]. subst mid.
  pose proof (absent_char _ _ _ _ Hmid) as Hc.
  cbn [append Re.match_here Re.atom_matches]. now rewrite Hc.
Qed.

Lemma prefix_long (k a b : string) :
  (String.length k <= String.length a)%nat ->
  prefix k (a ++ b) = prefix k a.
Proof.
revert a. induction k as [| x k IH]; intros a H.
- destruct a; [destruct b |]; reflexivity.
- destruct a as [| c a]; [simpl in H; lia |].
  cbn [append prefix]. destruct (ascii_dec x c); [| reflexivity].
  apply IH. simpl in H. lia.
Qed.

Lemma append_length (a b : string) :
  String.length (a ++ b) = (String.length a + String.length b)%nat.
Proof.
induction a as [| c a IH]; simpl; [reflexivity | now rewrite IH].
Qed.

Lemma starts_before_split (key pre : string) :
  starts_before key pre = false ->
  forall p1 p2, pre = (p1 ++ p2)%string -> p2 <> ""%string ->
                prefix key (p2 ++ key) = false.
Proof.
intros H p1. revert pre H. induction p1 as [| c p1 IH]; intros pre H p2 -> Hne.
- destruct p2 as [| c p2]; [now elim Hne |].
  cbn [append starts_before] in H. now apply orb_false_iff in H as [H _].
- cbn [append starts_before] in H. apply orb_false_iff in H as [_ H].
  exact (IH _ H p2 eq_refl Hne).
Qed.

(** A key that does not start inside [pre] is matched nowhere inside it. *)
Lemma key_absent_before (dotall : bool) (key pre rest : string)
      (P : Re.pattern) :
  starts_before key pre = false ->
  forall p1 p2, pre = (p1 ++ p2)%string -> p2 <> ""%string ->
                Re.match_here dotall (Re.lit key ++ P)
                              (p2 ++ key ++ rest)%string = None.
Proof.
intros Hkey p1 p2 Hsplit Hne.
destruct (Re.match_here dotall (Re.lit key ++ P) (p2 ++ key ++ rest))
  as [r |] eqn:E; [exfalso | reflexivity].
destruct (match_here_lit _ _ _ _ _ E) as [s' [Hs' _]].
assert (Hp : prefix key (p2 ++ key ++ rest) = true)
  by (rewrite Hs'; apply prefix_self_append).
rewrite <- append_assoc, prefix_long in Hp.
- now rewrite (starts_before_split _ _ Hkey _ _ Hsplit Hne) in Hp.
- rewrite append_length. lia.
Qed.

Lemma key_line_lookup (key props pre mid value post : string) :
  key_line key props pre mid value post ->
  exists gs,
    Re.findall false (Re.lit key ++ PROP_REGEX_PATTERN) props = value :: gs.
Proof.
intros [-> [Hkey [Hmid [Hmidl [Hval Hvall]]]]].
unfold Re.findall.
apply (findall_from_first false (Re.lit key ++ PROP_REGEX_PATTERN)
         (key ++ mid ++ "[" ++ value ++ "]" ++ post)%string
         (Some value, post)).
- destruct key; [destruct mid |]; discriminate.
- rewrite match_here_lit_append. now apply prop_match.
- now apply key_absent_before.
Qed.

(** X11: in a record returned by [get_device_properties], the serial number
    and the manufacturer (and the wifi MAC, when the dump names it) are the
    bracketed values that follow, on the same line, the first occurrence
    of the text [serialno], [manufacturer], [wifimac] in the dump. *)
Theorem device_properties_values
        (props : string) (wifi_out : option string) (r : device_properties) :
  get_device_properties (Some props) wifi_out = Return r ->
  (forall pre mid value post,
      key_line "serialno" props pre mid value post -> serialno r = value)
  /\ (forall pre mid value post,
         key_line "manufacturer" props pre mid value post ->
         manufacturer r = value)
  /\ (forall pre mid value post,
         key_line "wifimac" props pre mid value post -> wifimac r = value).
Proof.
unfold get_device_properties. cbn [expect_str bind]. intros H.
match type of H with
| bind ?w _ = _ => destruct w as [mac |] eqn:Emac; [| discriminate]
end.
cbn [bind] in H.
destruct (py_index (Re.findall false SERIALNO_REGEX_PATTERN props) 0)
  as [sn |] eqn:Esn; [| discriminate]. cbn [bind] in H.
destruct (py_index (Re.findall false MANUF_REGEX_PATTERN props) 0)
  as [mf |] eqn:Emf; [| discriminate]. cbn [bind] in H.
destruct (py_index (Re.findall false MODEL_REGEX_PATTERN props) 0)
  as [md |] eqn:Emd; [| discriminate]. cbn [bind] in H.
destruct (py_index (Re.findall false VERSION_REGEX_PATTERN props) 0)
  as [vs |] eqn:Evs; [| discriminate]. cbn [bind] in H.
injection H as <-. cbn [wifimac serialno manufacturer].
split; [| split]; intros pre mid value post Hline.
- destruct (key_line_lookup _ _ _ _ _ _ Hline) as [gs Hgs].
  unfold SERIALNO_REGEX_PATTERN in Esn. rewrite Hgs in Esn.
  cbn [py_index nth_error] in Esn. congruence.
- destruct (key_line_lookup _ _ _ _ _ _ Hline) as [gs Hgs].
  unfold MANUF_REGEX_PATTERN in Emf. rewrite Hgs in Emf.
  cbn [py_index nth_error] in Emf. congruence.
- destruct (key_line_lookup _ _ _ _ _ _ Hline) as [gs Hgs].
  assert (Hc : Str.contains "wifimac" props = true).
  { destruct Hline as [-> _]. apply contains_append. }
  rewrite Hc in Emac. unfold WIFIMAC_PROP_REGEX_PATTERN in Emac.
  rewrite Hgs in Emac. cbn [py_index nth_error] in Emac. congruence.
Qed.

Lemma device_properties_values_witness :
  exists r,
    get_device_properties (Some getprop_dump) (Some wlan0_dump) = Return r
    /\ key_line "serialno" getprop_dump
         ("[ro.build.version.release]: [9]" ++ nl
          ++ "[ro.product.manufacturer]: [Acme]" ++ nl
          ++ "[ro.product.model]: [Box 2]" ++ nl ++ "[ro.")
         "]: " "A1B2C3" nl
    /\ serialno r = "A1B2C3"%string.
Proof.
eexists. split; [reflexivity |].
assert (Hline : key_line "serialno" getprop_dump
                  ("[ro.build.version.release]: [9]" ++ nl
                   ++ "[ro.product.manufacturer]: [Acme]" ++ nl
                   ++ "[ro.product.model]: [Box 2]" ++ nl ++ "[ro.")
                  "]: " "A1B2C3" nl).
{ repeat split; try reflexivity. }
split; [exact Hline |].
exact (proj1 (device_properties_values getprop_dump (Some wlan0_dump) _ eq_refl)
             _ _ _ _ Hline).
Defined.

(** ** The sign and the range of the volume *)

Section Rounding.

Variables prec emax : Z.

Lemma iter_pos_keeps {A : Type} (f : A -> A) (P : A -> Prop) :
  (forall x, P x -> P (f x)) ->
  forall n x, P x -> P (iter_pos f n x).
Proof.
intros Hf. induction n as [n IH | n IH |]; intros x Hx; simpl.
- apply IH, IH, Hf, Hx.
- apply IH, IH, Hx.
- apply Hf, Hx.
Qed.

Lemma shr_1_nonneg (mrs : shr_record) :
  (0 <= shr_m mrs)%Z -> (0 <= shr_m (shr_1 mrs))%Z.
Proof.
destruct mrs as [m r s]. simpl.
destruct m as [| [p | p |] | [p | p |]]; simpl; lia.
Qed.

Lemma shr_fexp_nonneg (m e : Z) (l : location) :
  (0 <= m)%Z -> (0 <= shr_m (fst (shr_fexp prec emax m e l)))%Z.
Proof.
intros Hm. unfold shr_fexp, shr.
assert (H0 : (0 <= shr_m (shr_record_of_loc m l))%Z)
  by (destruct l as [| []]; exact Hm).
destruct (fexp prec emax (Zdigits2 m + e) - e)%Z as [| n | n];
  cbn [fst]; try exact H0.
apply (iter_pos_keeps shr_1 (fun x => (0 <= shr_m x)%Z) shr_1_nonneg).
exact H0.
Qed.

Lemma round_nearest_even_nonneg (m : Z) (l : location) :
  (0 <= m)%Z -> (0 <= round_nearest_even m l)%Z.
Proof.
intros Hm. unfold round_nearest_even.
destruct l as [| []]; try lia. destruct (Z.even m); lia.
Qed.

(** Rounding a non-negative mantissa with the sign plus never gives a
    negative number or a NaN. *)
Lemma binary_round_aux_nonneg (mx ex : Z) (lx : location) :
  (0 <= mx)%Z ->
  nonneg_float (binary_round_aux prec emax false mx ex lx) = true.
Proof.
intros Hm. unfold binary_round_aux.
pose proof (shr_fexp_nonneg mx ex lx Hm) as H1.
destruct (shr_fexp prec emax mx ex lx) as [mrs' e']. cbn [fst] in H1.
pose proof (shr_fexp_nonneg _ e' loc_Exact
              (round_nearest_even_nonneg _ (loc_of_shr_record mrs') H1)) as H2.
destruct (shr_fexp prec emax
            (round_nearest_even (shr_m mrs') (loc_of_shr_record mrs'))
            e' loc_Exact) as [mrs'' e''].
cbn [fst] in H2.
destruct (shr_m mrs'') as [| m | m]; [reflexivity | | lia].
now destruct (e'' <=? emax - prec)%Z.
Qed.

End Rounding.

Lemma of_Z_nonneg (n : Z) :
  (0 <= n)%Z -> nonneg_float (Float.of_Z n) = true.
Proof.
intros Hn. unfold Float.of_Z, binary_normalize.
destruct n as [| m | m]; [reflexivity | | lia].
unfold binary_round.
destruct (shl_align m 0 (fexp Float.prec Float.emax (Z.pos (digits2_pos m) + 0)))
  as [mz ez].
apply binary_round_aux_nonneg. lia.
Qed.

Lemma mul_nonneg (m : positive) (e : Z) (y : spec_float) :
  nonneg_float y = true ->
  nonneg_float (Float.mul (S754_finite false m e) y) = true.
Proof.
unfold Float.mul. destruct y as [[|] | [|] | | [|] my ey]; try discriminate;
  intros _; cbn [SFmul xorb]; try reflexivity.
apply binary_round_aux_nonneg. lia.
Qed.

Lemma round2_nonneg (x : spec_float) :
  nonneg_float x = true -> nonneg_float (Float.round2 x) = true.
Proof.
destruct x as [[|] | [|] | | [|] m e]; try discriminate; intros _;
  try reflexivity.
unfold Float.round2, Float.of_ratio.
set (h := match e with
          | Zneg k => Float.nearest_even (100 * Zpos m) (Z.pow_pos 2 k)
          | _ => (100 * Zpos m * 2 ^ e)%Z
          end).
assert (Hh : (0 <= h)%Z).
{ subst h. destruct e as [| k | k].
  - lia.
  - pose proof (Z.pow_nonneg 2 (Zpos k)). nia.
  - unfold Float.nearest_even.
    assert (Hd : (0 < Z.pow_pos 2 k)%Z)
      by (rewrite Z.pow_pos_fold; apply Z.pow_pos_nonneg; lia).
    pose proof (Z.div_pos (100 * Zpos m) (Z.pow_pos 2 k) ltac:(lia) Hd).
    destruct (2 * ((100 * Zpos m) mod Z.pow_pos 2 k) ?= Z.pow_pos 2 k)%Z;
      try lia.
    destruct (Z.even (100 * Zpos m / Z.pow_pos 2 k)); lia. }
unfold SFdiv_core_binary.
match goal with
| |- context [Z.div_eucl ?a 100] =>
    assert (Ha : (0 <= a)%Z);
    [| pose proof (Z.div_pos a 100 Ha ltac:(lia)) as Hq;
       unfold Z.div in Hq; destruct (Z.div_eucl a 100) as [q r];
       now apply binary_round_aux_nonneg]
end.
destruct (0 - 0 - Z.min (fexp Float.prec Float.emax
                               (Zdigits2 h + 0 - (Zdigits2 100 + 0)))
                        (0 - 0))%Z; try lia.
rewrite Z.shiftl_mul_pow2; [| lia].
pose proof (Z.pow_nonneg 2 (Zpos p)). nia.
Qed.

Lemma digits_value_nonneg (s : string) :
  Str.all_chars Str.is_digit s = true ->
  forall acc, (0 <= acc)%Z -> (0 <= Str.digits_value acc s)%Z.
Proof.
induction s as [| c s IH]; intros H acc Hacc; [exact Hacc |].
simpl in H. apply andb_true_iff in H as [Hc Hs].
cbn [Str.digits_value]. apply (IH Hs).
destruct (digit_facts c Hc) as [_ [_ [_ [_ Hv]]]]. lia.
Qed.

Lemma volume_of_nonneg (raw : string) :
  Str.all_chars Str.is_digit raw = true ->
  nonneg_float (volume_of raw) = true.
Proof.
intros H. unfold volume_of. apply round2_nonneg.
assert (Hc : exists m e,
           Float.div (Float.of_Z 1) (Float.of_Z 15) = S754_finite false m e)
  by (eexists; eexists; vm_compute; reflexivity).
destruct Hc as [m [e ->]]. apply mul_nonneg.
unfold Float.of_digits. apply of_Z_nonneg.
apply (digits_value_nonneg raw H). lia.
Qed.

(** The volume of a decoded tuple comes from a run of digits. *)
Lemma decoded_volume_raw (ws : string -> option app_dict) (output : string)
      (p : properties) (v : spec_float) :
  get_properties ws (Some output) = Return p ->
  volume p = Some v ->
  exists raw, Str.all_chars Str.is_digit raw = true /\ v = volume_of raw.
Proof.
intros H Hv.
destruct (audio_state p) as [a |] eqn:E.
- destruct (get_properties_audio ws _ _ _ H E) as [_ [_ Hb]].
  destruct (first_match BLOCK_REGEX_PATTERN (audio_output_of output))
    as [block |].
  + destruct Hb as [_ [_ Hvol]]. rewrite Hv in Hvol.
    unfold block_volume in Hvol.
    destruct (block_device block) as [d |]; [| discriminate].
    destruct (first_match (Re.lit d ++ VOLUME_REGEX_PATTERN) block)
      as [raw |] eqn:Er; [| discriminate].
    injection Hvol as ->. exists raw.
    destruct (volume_group_digits _ _ _ Er). now split.
  + destruct Hb as [_ [_ Hvol]]. congruence.
- destruct (get_properties_no_audio ws _ _ H E) as [_ [_ Hvol]]. congruence.
Qed.

Lemma property_volume_raw (output : option string) (v : spec_float) :
  Property.volume output = Return (Some v) ->
  exists raw, Str.all_chars Str.is_digit raw = true /\ v = volume_of raw.
Proof.
destruct output as [audio |]; [| discriminate].
rewrite property_volume_eq.
destruct (Str.is_empty audio); [discriminate |].
destruct (first_match BLOCK_REGEX_PATTERN audio) as [b |]; [| discriminate].
unfold block_volume. destruct (block_device b) as [d |]; [| discriminate].
destruct (first_match (Re.lit d ++ VOLUME_REGEX_PATTERN) b) as [raw |] eqn:Er;
  [| discriminate].
cbn [option_map]. intros H. injection H as <-. exists raw.
destruct (volume_group_digits _ _ _ Er). now split.
Qed.

(** X12: a volume reported by [get_properties] or by the [volume] property
    is never negative and never a NaN: it is zero, a positive number or
    plus infinity. *)
Theorem volume_never_negative :
  (forall (ws : string -> option app_dict) (output : string)
          (p : properties) (v : spec_float),
      get_properties ws (Some output) = Return p ->
      volume p = Some v ->
      nonneg_float v = true)
  /\ (forall (output : option string) (v : spec_float),
         Property.volume output = Return (Some v) ->
         nonneg_float v = true).
Proof.
split.
- intros ws output p v H Hv.
  destruct (decoded_volume_raw ws _ _ _ H Hv) as [raw [Hd ->]].
  now apply volume_of_nonneg.
- intros output v H.
  destruct (property_volume_raw _ _ H) as [raw [Hd ->]].
  now apply volume_of_nonneg.
Qed.

Lemma volume_never_negative_witness :
  exists p v,
    get_properties no_window (Some long_volume_dump) = Return p
    /\ volume p = Some v
    /\ nonneg_float v = true.
Proof.
eexists. eexists. split; [reflexivity |]. split; [reflexivity |].
exact (proj1 volume_never_negative no_window long_volume_dump _ _
             eq_refl eq_refl).
Defined.

Lemma unit_range_to_1000 (v : Z) :
  (0 <= v <= 1000)%Z -> unit_range_agrees v = true.
Proof.
intros Hv.
assert (Hall : forallb unit_range_agrees (map Z.of_nat (seq 0 1001)) = true)
  by (vm_compute; reflexivity).
rewrite forallb_forall in Hall. apply Hall.
apply in_map_iff. exists (Z.to_nat v). split; [lia |].
apply in_seq. lia.
Qed.

(** X13: the volume is not clamped to the scale: for a raw value from 0 to
    1000 the reported volume is at most 1.0 exactly when the raw value is
    at most 15. *)
Theorem volume_within_scale (raw : string) :
  (0 <= Str.digits_value 0 raw <= 1000)%Z ->
  (at_most_one (volume_of raw) = true <-> (Str.digits_value 0 raw <= 15)%Z).
Proof.
intros Hv. pose proof (unit_range_to_1000 _ Hv) as H.
unfold unit_range_agrees in H. apply Bool.eqb_prop in H.
unfold volume_of, Float.of_digits. rewrite H. apply Z.leb_le.
Qed.

Lemma volume_within_scale_witness :
  (0 <= Str.digits_value 0 "16" <= 1000)%Z
  /\ at_most_one (volume_of "16") = false.
Proof.
assert (Hr : (0 <= Str.digits_value 0 "16" <= 1000)%Z)
  by (vm_compute; split; discriminate).
split; [exact Hr |].
destruct (at_most_one (volume_of "16")) eqn:E; [| reflexivity].
pose proof (proj1 (volume_within_scale "16"%string Hr) E) as H.
vm_compute in H. now elim H.
Defined.

(** ** The tokens read in the stream block *)

Lemma all_chars_middle (f : ascii -> bool) (u1 : string) (c : ascii)
      (u2 : string) :
  Str.all_chars f (u1 ++ String c u2) = true -> f c = true.
Proof.
induction u1 as [| a u1 IH]; simpl; intros H;
  apply andb_true_iff in H as [H1 H2]; [exact H1 | exact (IH H2)].
Qed.

Lemma lit_append (a b : string) :
  Re.lit (a ++ b) = Re.lit a ++ Re.lit b.
Proof.
induction a as [| c a IH]; simpl; [reflexivity | now rewrite IH].
Qed.

(** The pattern [marker(.*?)\W] reads the run of word characters that
    follows the first occurrence of the marker, when a character that is
    no word character ends the run. *)
Lemma marker_token (l block pre g post : string) (c : ascii) :
  block = (pre ++ l ++ g ++ String c post)%string ->
  starts_before l pre = false ->
  Str.all_chars Str.is_word g = true ->
  Str.is_word c = false ->
  first_match (Re.lit l ++ [Re.LazyStar Re.Dot true; Re.One Re.NonWord]) block
  = Some g.
Proof.
intros -> Hl Hg Hc. unfold first_match, Re.findall.
destruct (findall_from_first true
            (Re.lit l ++ [Re.LazyStar Re.Dot true; Re.One Re.NonWord])
            (l ++ g ++ String c post)%string (Some g, post)) with (pre := pre)
  as [gs Hgs].
- destruct l; [destruct g |]; discriminate.
- rewrite match_here_lit_append. cbn [Re.match_here].
  rewrite (lazy_star_exact _ _ true (String c post) (None, post)).
  + reflexivity.
  + cbn [Re.match_here Re.atom_matches]. now rewrite Hc.
  + apply all_chars_dotall.
  + intros u1 [| x u2] Hu Hne; [now elim Hne |]. subst g.
    cbn [append Re.match_here Re.atom_matches].
    now rewrite (all_chars_middle _ _ _ _ Hg).
- now apply key_absent_before.
- now rewrite Hgs.
Qed.

(** What a token read by [marker(.*?)\W] is: word characters that follow
    the marker and that a character which is no word character ends. *)
Lemma marker_token_sound (l block g : string) :
  first_match (Re.lit l ++ [Re.LazyStar Re.Dot true; Re.One Re.NonWord]) block
  = Some g ->
  Str.all_chars Str.is_word g = true
  /\ exists pre c post,
      block = (pre ++ l ++ g ++ String c post)%string
      /\ Str.is_word c = false.
Proof.
intros H. destruct (first_match_In _ _ _ H) as [t [r [Hsuf [Hm ->]]]].
destruct (suffix_split _ _ Hsuf) as [pre ->].
destruct (match_here_lit _ _ _ _ _ Hm) as [s' [-> Hs']].
cbn [Re.match_here] in Hs'.
assert (Hk : forall c s0,
           Re.match_here true [Re.One Re.NonWord] (String c s0) = None ->
           Str.is_word c = true).
{ intros c s0. cbn [Re.match_here Re.atom_matches].
  destruct (Str.is_word c); [reflexivity | discriminate]. }
destruct (lazy_star_group _ _ _ Hk _ _ _ Hs') as [w [Hr Hw]].
destruct (lazy_star_sound _ _ _ _ _ _ Hs') as [u [v [r0 [-> [_ [Hv [-> _]]]]]]].
cbn [Re.with_group Re.group_text fst append] in Hr |- *.
injection Hr as <-. split; [exact Hw |].
destruct v as [| c v]; [discriminate |].
cbn [Re.match_here Re.atom_matches] in Hv.
destruct (Str.is_word c) eqn:Ec; [discriminate |].
now exists pre, c, v.
Qed.

(** X14: in a tuple decoded from a stream block, the playback device is the
    run of word characters that follows the first ["Devices: "] of the
    block and the muted flag tells whether the run that follows the first
    ["Muted: "] is ["true"], provided a character that is no word character
    ends the run; and a decoded device is always such a run. *)
Theorem decoded_device_and_muted
        (ws : string -> option app_dict) (output : string) (p : properties)
        (block : string) :
  get_properties ws (Some output) = Return p ->
  audio_state p <> None ->
  first_match BLOCK_REGEX_PATTERN (audio_output_of output) = Some block ->
  (forall pre g c post,
      block = (pre ++ "Devices: " ++ g ++ String c post)%string ->
      starts_before "Devices: " pre = false ->
      Str.all_chars Str.is_word g = true ->
      Str.is_word c = false ->
      device p = Some g)
  /\ (forall pre g c post,
         block = (pre ++ "Muted: " ++ g ++ String c post)%string ->
         starts_before "Muted: " pre = false ->
         Str.all_chars Str.is_word g = true ->
         Str.is_word c = false ->
         muted p = Some (String.eqb g "true"))
  /\ (forall d,
         device p = Some d ->
         Str.all_chars Str.is_word d = true
         /\ exists pre c post,
             block = (pre ++ "Devices: " ++ d ++ String c post)%string
             /\ Str.is_word c = false).
Proof.
intros H Ha Hblock.
destruct (audio_state p) as [a |] eqn:E; [clear Ha | now elim Ha].
destruct (get_properties_audio ws _ _ _ H E) as [_ [_ Hb]].
rewrite Hblock in Hb. destruct Hb as [Hd [Hm _]].
split; [| split].
- intros pre g c post Hshape Hfirst Hg Hc. rewrite Hd.
  exact (marker_token _ _ _ _ _ _ Hshape Hfirst Hg Hc).
- intros pre g c post Hshape Hfirst Hg Hc. rewrite Hm. unfold block_muted.
  unfold MUTED_REGEX_PATTERN.
  now rewrite (marker_token _ _ _ _ _ _ Hshape Hfirst Hg Hc).
- intros d Hdev. rewrite Hd in Hdev. now apply marker_token_sound.
Qed.

Lemma decoded_device_and_muted_witness :
  exists p block,
    get_properties no_window (Some full_dump) = Return p
    /\ first_match BLOCK_REGEX_PATTERN (audio_output_of full_dump) = Some block
    /\ block = ((":" ++ nl ++ "   ") ++ "Muted: " ++ "false"
                ++ String "010" ("   Current: 2 (speaker): 8, 4 (headset): 15"
                                 ++ nl ++ "   Devices: speaker" ++ nl))%string
    /\ muted p = Some false.
Proof.
eexists. eexists. split; [reflexivity |]. split; [reflexivity |].
split; [reflexivity |].
exact (proj1 (proj2 (decoded_device_and_muted no_window full_dump _ _
                       eq_refl ltac:(discriminate) eq_refl))
             (":" ++ nl ++ "   ")%string "false"%string "010"%char
             ("   Current: 2 (speaker): 8, 4 (headset): 15"
              ++ nl ++ "   Devices: speaker" ++ nl)%string
             eq_refl eq_refl eq_refl eq_refl).
Defined.

(** A greedy [{1,}] before the end of the pattern takes the whole run of
    accepted characters. *)
Lemma greedy_plus_exact (k : string -> option (option string * string))
      (accepts : ascii -> bool) (group : bool) (v : string) :
  (forall s, k s = Some (None, s)) ->
  match v with
  | EmptyString => True
  | String c _ => accepts c = false
  end ->
  forall u text,
    u <> ""%string ->
    Str.all_chars accepts u = true ->
    Re.greedy_plus k accepts group (u ++ v)%string text
    = Some (Re.with_group group (text ++ u)%string (None, v)).
Proof.
intros Hk Hv. induction u as [| c u IH]; intros text Hne Hu; [now elim Hne |].
simpl in Hu. apply andb_true_iff in Hu as [Hc Hu].
cbn [append Re.greedy_plus]. rewrite Hc.
destruct u as [| c' u].
- cbn [append].
  assert (Hstop : Re.greedy_plus k accepts group v (Re.snoc text c) = None).
  { destruct v as [| x v]; [reflexivity |]. cbn [Re.greedy_plus].
    now rewrite Hv. }
  rewrite Hstop, Hk. reflexivity.
- rewrite (IH (Re.snoc text c) ltac:(discriminate) Hu).
  now rewrite append_snoc.
Qed.

(** X15: in a tuple decoded from a stream block, the volume comes from the
    run of digits that follows the first occurrence of the device name
    with ["): "] in the block: it is [round(1 / 15 * float(digits), 2)]
    for that run. *)
Theorem decoded_volume
        (ws : string -> option app_dict) (output : string) (p : properties)
        (block d pre digits rest : string) :
  get_properties ws (Some output) = Return p ->
  audio_state p <> None ->
  first_match BLOCK_REGEX_PATTERN (audio_output_of output) = Some block ->
  device p = Some d ->
  block = (pre ++ (d ++ "): ") ++ digits ++ rest)%string ->
  starts_before (d ++ "): ") pre = false ->
  digits <> ""%string ->
  Str.all_chars Str.is_digit digits = true ->
  match rest with
  | EmptyString => True
  | String c _ => Str.is_digit c = false
  end ->
  volume p = Some (volume_of digits).
Proof.
intros H Ha Hblock Hdev Hshape Hfirst Hne Hdig Hrest.
destruct (audio_state p) as [a |] eqn:E; [clear Ha | now elim Ha].
destruct (get_properties_audio ws _ _ _ H E) as [_ [_ Hb]].
rewrite Hblock in Hb. destruct Hb as [Hd [_ Hv]].
rewrite Hv. unfold block_volume. rewrite <- Hd, Hdev.
assert (Hpat : Re.lit d ++ VOLUME_REGEX_PATTERN
               = Re.lit (d ++ "): ") ++ [Re.GreedyPlus Re.Digit true]).
{ unfold VOLUME_REGEX_PATTERN. now rewrite lit_append, app_assoc. }
rewrite Hpat. unfold first_match, Re.findall.
destruct (findall_from_first true
            (Re.lit (d ++ "): ") ++ [Re.GreedyPlus Re.Digit true])
            ((d ++ "): ") ++ digits ++ rest)%string (Some digits, rest))
  with (pre := pre) as [gs Hgs].
- destruct d; discriminate.
- rewrite match_here_lit_append. cbn [Re.match_here].
  exact (greedy_plus_exact (Re.match_here true [])
           (Re.atom_matches true Re.Digit) true rest
           (fun s0 => eq_refl) Hrest digits "" Hne Hdig).
- now apply key_absent_before.
- rewrite Hshape, Hgs. reflexivity.
Qed.

Lemma decoded_volume_witness :
  exists p block,
    get_properties no_window (Some full_dump) = Return p
    /\ first_match BLOCK_REGEX_PATTERN (audio_output_of full_dump) = Some block
    /\ device p = Some "speaker"%string
    /\ block = ((":" ++ nl ++ "   Muted: false" ++ nl ++ "   Current: 2 (")
                ++ ("speaker" ++ "): ") ++ "8"
                ++ (", 4 (headset): 15" ++ nl ++ "   Devices: speaker" ++ nl))%string
    /\ volume p = Some (volume_of "8").
Proof.
eexists. eexists. split; [reflexivity |]. split; [reflexivity |].
split; [reflexivity |]. split; [reflexivity |].
exact (decoded_volume no_window full_dump _ _ "speaker"
         (":" ++ nl ++ "   Muted: false" ++ nl ++ "   Current: 2 (")%string
         "8" (", 4 (headset): 15" ++ nl ++ "   Devices: speaker" ++ nl)%string
         eq_refl ltac:(discriminate) eq_refl eq_refl eq_refl eq_refl
         ltac:(discriminate) eq_refl eq_refl).
Defined.

(** ["ether (.*?) brd"] reads the text between the first ["ether "] and
    the first [" brd"] after it. *)
Lemma ether_match (wifi_out pre mac post : string) :
  wifi_out = (pre ++ "ether " ++ mac ++ " brd" ++ post)%string ->
  starts_before "ether " pre = false ->
  starts_before " brd" mac = false ->
  Str.contains nl mac = false ->
  exists gs, Re.findall false WIFIMAC_REGEX_PATTERN wifi_out = mac :: gs.
Proof.
intros -> Hpre Hmac Hnl. unfold Re.findall, WIFIMAC_REGEX_PATTERN.
apply (findall_from_first false
         (Re.lit "ether " ++ [Re.LazyStar Re.Dot true] ++ Re.lit " brd")
         ("ether " ++ mac ++ " brd" ++ post)%string (Some mac, post)).
- discriminate.
- rewrite match_here_lit_append.
  change ([Re.LazyStar Re.Dot true] ++ Re.lit " brd")
    with (Re.LazyStar Re.Dot true :: Re.lit " brd").
  cbn [Re.match_here].
  rewrite (lazy_star_exact _ _ true (" brd" ++ post)%string (None, post)).
  + reflexivity.
  + apply match_here_lit_self.
  + now apply single_line_accepted.
  + intros u1 u2 Hu Hne.
    pose proof (key_absent_before false " brd" mac post [] Hmac u1 u2 Hu Hne)
      as Hk.
    now rewrite app_nil_r in Hk.
- now apply key_absent_before.
Qed.

(** X16: the source of the wifi MAC.  When the property dump holds the text
    ["wifimac"], the interface dump is never consulted:
    [get_device_properties] gives the same result for every [wifi_out], and
    raises [IndexError] when no bracketed value follows ["wifimac"] on its
    line, even if [wifi_out] holds a MAC.  When the dump does not hold
    ["wifimac"], the MAC of a returned record is the text between the
    first ["ether "] of the interface dump and the first [" brd"] after
    it. *)
Theorem wifimac_source (props : string) :
  (Str.contains "wifimac" props = true ->
   (forall w1 w2 : option string,
       get_device_properties (Some props) w1
       = get_device_properties (Some props) w2)
   /\ (Re.findall false WIFIMAC_PROP_REGEX_PATTERN props = [] ->
       forall w, get_device_properties (Some props) w = Raise IndexError))
  /\ (Str.contains "wifimac" props = false ->
      forall wifi_out pre mac post r,
        get_device_properties (Some props) (Some wifi_out) = Return r ->
        wifi_out = (pre ++ "ether " ++ mac ++ " brd" ++ post)%string ->
        starts_before "ether " pre = false ->
        starts_before " brd" mac = false ->
        Str.contains nl mac = false ->
        wifimac r = mac).
Proof.
split.
- intros Hc. unfold get_device_properties. cbn [expect_str bind]. rewrite Hc.
  split; [reflexivity |]. intros Hnone w. now rewrite Hnone.
- intros Hc wifi_out pre mac post r H Hshape Hpre Hmac Hnl.
  destruct (ether_match _ _ _ _ Hshape Hpre Hmac Hnl) as [gs Hgs].
  unfold get_device_properties in H. cbn [expect_str bind] in H.
  rewrite Hc in H. cbn [expect_str bind] in H. rewrite Hgs in H.
  cbn [py_index nth_error bind] in H.
  destruct (py_index (Re.findall false SERIALNO_REGEX_PATTERN props) 0);
    [| discriminate]. cbn [bind] in H.
  destruct (py_index (Re.findall false MANUF_REGEX_PATTERN props) 0);
    [| discriminate]. cbn [bind] in H.
  destruct (py_index (Re.findall false MODEL_REGEX_PATTERN props) 0);
    [| discriminate]. cbn [bind] in H.
  destruct (py_index (Re.findall false VERSION_REGEX_PATTERN props) 0);
    [| discriminate]. cbn [bind] in H.
  now injection H as <-.
Qed.

Lemma wifimac_source_witness :
  Str.contains "wifimac" getprop_dump = false
  /\ exists r,
      get_device_properties (Some getprop_dump) (Some wlan0_dump) = Return r
      /\ wlan0_dump
         = (("3: wlan0: <BROADCAST,MULTICAST,UP> mtu 1500" ++ nl
             ++ "    link/")
            ++ "ether " ++ "aa:bb:cc:dd:ee:ff" ++ " brd"
            ++ (" ff:ff:ff:ff:ff:ff" ++ nl))%string
      /\ wifimac r = "aa:bb:cc:dd:ee:ff"%string.
Proof.
split; [reflexivity |]. eexists. split; [reflexivity |].
split; [reflexivity |].
exact (proj2 (wifimac_source getprop_dump) eq_refl wlan0_dump
             ("3: wlan0: <BROADCAST,MULTICAST,UP> mtu 1500" ++ nl
              ++ "    link/")%string
             "aa:bb:cc:dd:ee:ff" (" ff:ff:ff:ff:ff:ff" ++ nl)%string _
             eq_refl eq_refl eq_refl eq_refl eq_refl).
Defined.

(** ** A token that ends the block *)

Lemma suffix_append_cases (t a b : string) :
  suffix t (a ++ b) ->
  (exists a1 a2, a = (a1 ++ a2)%string /\ a2 <> ""%string
                 /\ t = (a2 ++ b)%string)
  \/ suffix t b.
Proof.
induction a as [| c a IH]; cbn [append]; intros H; [now right |].
inversion H as [Ht | c' s' Hs' [Hc Hs]]; subst.
- left. exists ""%string, (String c a). now repeat split.
- destruct (IH Hs') as [[a1 [a2 [-> [Hne ->]]]] | Hb]; [| now right].
  left. exists (String c a1), a2. now repeat split.
Qed.

Lemma all_chars_split (f : ascii -> bool) (a b : string) :
  Str.all_chars f (a ++ b) = true ->
  Str.all_chars f a = true /\ Str.all_chars f b = true.
Proof.
induction a as [| c a IH]; cbn [append Str.all_chars]; [now split |].
intros H. apply andb_true_iff in H as [Hc H]. destruct (IH H) as [Ha Hb].
now rewrite Hc, Ha.
Qed.

Lemma lazy_star_word_run (g text : string) :
  Str.all_chars Str.is_word g = true ->
  Re.lazy_star (Re.match_here true [Re.One Re.NonWord])
               (Re.atom_matches true Re.Dot) true g text = None.
Proof.
revert text. induction g as [| c g IH]; intros text H; [reflexivity |].
simpl in H. apply andb_true_iff in H as [Hc Hg].
cbn [Re.lazy_star Re.match_here Re.atom_matches]. rewrite Hc.
cbn [negb orb]. exact (IH _ Hg).
Qed.

(** A marker whose first character occurs nowhere else in it, and which
    holds a character that is no word character, is not read when only
    word characters follow it up to the end of the block. *)
Lemma marker_at_end (x : ascii) (l' pre g : string) :
  Str.contains (String x "") l' = false ->
  Str.all_chars Str.is_word (String x l') = false ->
  starts_before (String x l') pre = false ->
  Str.all_chars Str.is_word g = true ->
  first_match (Re.lit (String x l')
                 ++ [Re.LazyStar Re.Dot true; Re.One Re.NonWord])
              (pre ++ String x l' ++ g)%string
  = None.
Proof.
intros Hx Hl Hpre Hg.
set (p := Re.lit (String x l') ++ [Re.LazyStar Re.Dot true; Re.One Re.NonWord]).
destruct (first_match p (pre ++ String x l' ++ g)) as [m |] eqn:E;
  [exfalso | reflexivity].
destruct (first_match_In _ _ _ E) as [t [r [Hsuf [Hm _]]]].
destruct (suffix_append_cases _ _ _ Hsuf)
  as [[p1 [p2 [Hsplit [Hne ->]]]] | Hsuf'].
- subst p. now rewrite (key_absent_before true _ _ g _ Hpre _ _ Hsplit Hne) in Hm.
- destruct (suffix_append_cases _ _ _ Hsuf')
    as [[l1 [l2 [Hsplit [Hne ->]]]] | Hsuf''].
  + destruct l1 as [| y l1]; cbn [append] in Hsplit.
    * subst l2 p. rewrite match_here_lit_append in Hm.
      cbn [Re.match_here] in Hm.
      now rewrite (lazy_star_word_run _ _ Hg) in Hm.
    * injection Hsplit as Hxy Hl'. subst y p.
      destruct l2 as [| z l2]; [now elim Hne |].
      subst l'. pose proof (absent_char _ _ _ _ Hx) as Hz.
      cbn [append List.app Re.lit Re.match_here Re.atom_matches] in Hm.
      now rewrite Hz in Hm.
  + destruct (suffix_split _ _ Hsuf'') as [g1 ->].
    destruct (all_chars_split _ _ _ Hg) as [_ Ht].
    subst p. destruct (match_here_lit _ _ _ _ _ Hm) as [s' [-> _]].
    destruct (all_chars_split _ _ _ Ht) as [Hword _]. congruence.
Qed.

(** X17: a mute flag or a device name that ends the stream block, with
    nothing but its word characters after the marker, is not read: the
    patterns ask for one more character that is no word character, so the
    field (and with the device, the volume) stays unset. *)
Theorem token_at_block_end
        (ws : string -> option app_dict) (output : string) (p : properties)
        (block : string) :
  get_properties ws (Some output) = Return p ->
  audio_state p <> None ->
  first_match BLOCK_REGEX_PATTERN (audio_output_of output) = Some block ->
  (forall pre g,
      block = (pre ++ "Muted: " ++ g)%string ->
      starts_before "Muted: " pre = false ->
      Str.all_chars Str.is_word g = true ->
      muted p = None)
  /\ (forall pre g,
         block = (pre ++ "Devices: " ++ g)%string ->
         starts_before "Devices: " pre = false ->
         Str.all_chars Str.is_word g = true ->
         device p = None /\ volume p = None).
Proof.
intros H Ha Hblock.
destruct (audio_state p) as [a |] eqn:E; [clear Ha | now elim Ha].
destruct (get_properties_audio ws _ _ _ H E) as [_ [_ Hb]].
rewrite Hblock in Hb. destruct Hb as [Hd [Hm Hv]].
split.
- intros pre g -> Hpre Hg. rewrite Hm. unfold block_muted, MUTED_REGEX_PATTERN.
  now rewrite (marker_at_end "M" "uted: " pre g eq_refl eq_refl Hpre Hg).
- intros pre g -> Hpre Hg. rewrite Hd, Hv.
  unfold block_volume, block_device, DEVICE_REGEX_PATTERN.
  now rewrite (marker_at_end "D" "evices: " pre g eq_refl eq_refl Hpre Hg).
Qed.

Lemma token_at_block_end_witness :
  exists p,
    get_properties no_window (Some muted_at_end_dump) = Return p
    /\ first_match BLOCK_REGEX_PATTERN (audio_output_of muted_at_end_dump)
       = Some (": " ++ "Muted: " ++ "false")%string
    /\ Str.all_chars Str.is_word "false" = true
    /\ muted p = None.
Proof.
eexists. split; [reflexivity |]. split; [reflexivity |].
split; [reflexivity |].
exact (proj1 (token_at_block_end no_window muted_at_end_dump _ _
                eq_refl ltac:(discriminate) eq_refl)
             ": "%string "false"%string eq_refl eq_refl eq_refl).
Defined.

(** * The volume and the audio fields in the text of the stream block *)

(** ** The raw volume of the device *)

(** What a greedy [{1,}] has read: a non-empty run of accepted characters,
    after which the rest of the pattern matches. *)
Lemma greedy_plus_sound (k : string -> option (option string * string))
      (accepts : ascii -> bool) (group : bool) :
  forall s text r,
    Re.greedy_plus k accepts group s text = Some r ->
    exists t rest r0,
      s = (t ++ rest)%string
      /\ t <> ""%string
      /\ Str.all_chars accepts t = true
      /\ k rest = Some r0
      /\ r = Re.with_group group (text ++ t)%string r0.
Proof.
induction s as [| c s IH]; intros text r H; simpl in H; [discriminate |].
destruct (accepts c) eqn:Ec; [| discriminate].
destruct (Re.greedy_plus k accepts group s (Re.snoc text c)) as [r' |] eqn:E.
- injection H as <-.
  destruct (IH _ _ E) as [t [rest [r0 [-> [_ [Ht [Hk ->]]]]]]].
  exists (String c t), rest, r0. rewrite append_snoc.
  split; [reflexivity |]. split; [discriminate |].
  split; [simpl; now rewrite Ec, Ht |]. now split.
- destruct (k s) as [r0 |] eqn:Ek; [| discriminate]. injection H as <-.
  exists (String c ""), s, r0.
  split; [reflexivity |]. split; [discriminate |].
  split; [simpl; now rewrite Ec |]. now split.
Qed.

Lemma volume_pattern_lit (d : string) :
  Re.lit d ++ VOLUME_REGEX_PATTERN
  = Re.lit (d ++ "): ") ++ [Re.GreedyPlus Re.Digit true].
Proof. unfold VOLUME_REGEX_PATTERN. now rewrite lit_append, app_assoc. Qed.

(** The raw volume read for the device [d] stands in the block right after
    the text [d): ]. *)
Lemma volume_match_text (d block raw : string) :
  first_match (Re.lit d ++ VOLUME_REGEX_PATTERN) block = Some raw ->
  exists pre rest, block = (pre ++ (d ++ "): ") ++ raw ++ rest)%string.
Proof.
intros H. destruct (first_match_In _ _ _ H) as [t [r [Hsuf [Hm ->]]]].
destruct (suffix_split _ _ Hsuf) as [pre ->].
rewrite volume_pattern_lit in Hm.
destruct (match_here_lit _ _ _ _ _ Hm) as [s' [-> Hs']].
cbn [Re.match_here] in Hs'.
destruct (greedy_plus_sound _ _ _ _ _ _ Hs')
  as [u [rest [r0 [-> [_ [_ [Hk ->]]]]]]].
exists pre, rest. reflexivity.
Qed.

(** The raw volume read for the device [d] is the whole run of digits that
    follows the first [d): ] of the block. *)
Lemma volume_run_match (d block pre digits rest : string) :
  block = (pre ++ (d ++ "): ") ++ digits ++ rest)%string ->
  starts_before (d ++ "): ") pre = false ->
  digits <> ""%string ->
  Str.all_chars Str.is_digit digits = true ->
  match rest with
  | EmptyString => True
  | String c _ => Str.is_digit c = false
  end ->
  first_match (Re.lit d ++ VOLUME_REGEX_PATTERN) block = Some digits.
Proof.
intros -> Hfirst Hne Hdig Hrest.
rewrite volume_pattern_lit. unfold first_match, Re.findall.
destruct (findall_from_first true
            (Re.lit (d ++ "): ") ++ [Re.GreedyPlus Re.Digit true])
            ((d ++ "): ") ++ digits ++ rest)%string (Some digits, rest))
  with (pre := pre) as [gs Hgs].
- destruct d; discriminate.
- rewrite match_here_lit_append. cbn [Re.match_here].
  exact (greedy_plus_exact (Re.match_here true [])
           (Re.atom_matches true Re.Digit) true rest
           (fun s0 => eq_refl) Hrest digits "" Hne Hdig).
- now apply key_absent_before.
- now rewrite Hgs.
Qed.

(** On the raw values from 0 to 1000 the volume is [round(v / 15.0, 2)]. *)
Lemma volume_of_spec (raw : string) :
  (0 <= Str.digits_value 0 raw <= 1000)%Z ->
  volume_of raw = spec_volume (Str.digits_value 0 raw).
Proof.
intros Hv. apply float_eqb_eq. exact (rescaling_agrees_to_1000 _ Hv).
Qed.

(** Far beyond the scale the two roundings can differ: for the raw value
    914516546300266 of [long_volume_dump], [round(1 / 15 * float(raw), 2)]
    is not the double [round(raw / 15.0, 2)]. *)
Lemma volume_beyond_scale :
  (exists p, get_properties no_window (Some long_volume_dump) = Return p
             /\ volume p = Some (volume_of "914516546300266"))
  /\ Str.digits_value 0 "914516546300266" = 914516546300266%Z
  /\ volume_of "914516546300266" <> spec_volume 914516546300266.
Proof.
split; [eexists; split; reflexivity |].
split; [reflexivity |].
vm_compute. discriminate.
Qed.

(** C6: a volume reported by [get_properties] or by the [volume] property
    comes from the raw value extracted for the playback device, the run of
    digits [raw] that [device + VOLUME_REGEX_PATTERN] reads in the stream
    block: it is [round(1 / 15 * float(raw), 2)], and for a raw value [v]
    from 0 to 1000, which covers the native scale 0..15, that is
    [round(v / 15.0, 2)]; when the first occurrence of
    the device name with ["): "] in the block is followed by the digits of
    [v], the reported volume is [round(v / 15.0, 2)]; raw 15 gives 1.0,
    raw 8 gives 0.53 and raw 0 gives 0.0. *)
Theorem volume_rescaling :
  (forall (ws : string -> option app_dict) (output : string)
          (p : properties) (v : spec_float),
      get_properties ws (Some output) = Return p ->
      volume p = Some v ->
      exists block d raw,
        first_match BLOCK_REGEX_PATTERN (audio_output_of output) = Some block
        /\ device p = Some d
        /\ first_match (Re.lit d ++ VOLUME_REGEX_PATTERN) block = Some raw
        /\ raw <> ""%string
        /\ Str.all_chars Str.is_digit raw = true
        /\ v = volume_of raw
        /\ ((0 <= Str.digits_value 0 raw <= 1000)%Z ->
            v = spec_volume (Str.digits_value 0 raw)))
  /\ (forall (audio : string) (v : spec_float),
         Property.volume (Some audio) = Return (Some v) ->
         exists block d raw,
           first_match BLOCK_REGEX_PATTERN audio = Some block
           /\ first_match DEVICE_REGEX_PATTERN block = Some d
           /\ first_match (Re.lit d ++ VOLUME_REGEX_PATTERN) block = Some raw
           /\ raw <> ""%string
           /\ Str.all_chars Str.is_digit raw = true
           /\ v = volume_of raw
           /\ ((0 <= Str.digits_value 0 raw <= 1000)%Z ->
               v = spec_volume (Str.digits_value 0 raw)))
  /\ (forall (ws : string -> option app_dict) (output : string)
             (p : properties) (block d pre digits rest : string),
         get_properties ws (Some output) = Return p ->
         audio_state p <> None ->
         first_match BLOCK_REGEX_PATTERN (audio_output_of output)
         = Some block ->
         device p = Some d ->
         block = (pre ++ (d ++ "): ") ++ digits ++ rest)%string ->
         starts_before (d ++ "): ") pre = false ->
         digits <> ""%string ->
         Str.all_chars Str.is_digit digits = true ->
         match rest with
         | EmptyString => True
         | String c _ => Str.is_digit c = false
         end ->
         (0 <= Str.digits_value 0 digits <= 1000)%Z ->
         volume p = Some (spec_volume (Str.digits_value 0 digits)))
  /\ spec_volume 15 = Float.of_Z 1
  /\ spec_volume 8 = Float.of_ratio false 53 100
  /\ spec_volume 0 = Float.of_Z 0.
Proof.
split; [| split; [| split; [| repeat split]]].
- intros ws output p v H Hv.
  destruct (audio_state p) as [a |] eqn:E.
  + destruct (get_properties_audio ws _ _ _ H E) as [_ [_ Hb]].
    destruct (first_match BLOCK_REGEX_PATTERN (audio_output_of output))
      as [block |].
    * destruct Hb as [Hdev [_ Hvol]]. rewrite Hv in Hvol.
      unfold block_volume in Hvol.
      destruct (block_device block) as [d |] eqn:Ed; [| discriminate].
      destruct (first_match (Re.lit d ++ VOLUME_REGEX_PATTERN) block)
        as [raw |] eqn:Er; [| discriminate].
      cbn [option_map] in Hvol. apply some_inj in Hvol. subst v.
      exists block, d, raw.
      destruct (volume_group_digits _ _ _ Er) as [Hne Hdig].
      split; [reflexivity |]. split; [exact Hdev |]. split; [exact Er |].
      split; [exact Hne |]. split; [exact Hdig |]. split; [reflexivity |].
      exact (volume_of_spec raw).
    * destruct Hb as [_ [_ Hvol]]. congruence.
  + destruct (get_properties_no_audio ws _ _ H E) as [_ [_ Hvol]].
    congruence.
- intros audio v. rewrite property_volume_eq.
  destruct (Str.is_empty audio); [discriminate |].
  destruct (first_match BLOCK_REGEX_PATTERN audio) as [block |];
    [| discriminate].
  unfold block_volume, block_device.
  destruct (first_match DEVICE_REGEX_PATTERN block) as [d |] eqn:Ed;
    [| discriminate].
  destruct (first_match (Re.lit d ++ VOLUME_REGEX_PATTERN) block)
    as [raw |] eqn:Er; [| discriminate].
  cbn [option_map]. intros H. injection H as <-.
  exists block, d, raw.
  destruct (volume_group_digits _ _ _ Er) as [Hne Hdig].
  split; [reflexivity |]. split; [exact Ed |]. split; [exact Er |].
  split; [exact Hne |]. split; [exact Hdig |]. split; [reflexivity |].
  exact (volume_of_spec raw).
- intros ws output p block d pre digits rest
         H Ha Hblock Hdev Hshape Hfirst Hne Hdig Hrest Hrange.
  destruct (audio_state p) as [a |] eqn:E; [clear Ha | now elim Ha].
  destruct (get_properties_audio ws _ _ _ H E) as [_ [_ Hb]].
  rewrite Hblock in Hb. destruct Hb as [Hd [_ Hv]].
  rewrite Hv. unfold block_volume. rewrite <- Hd, Hdev.
  rewrite (volume_run_match _ _ _ _ _ Hshape Hfirst Hne Hdig Hrest).
  cbn [option_map]. now rewrite (volume_of_spec _ Hrange).
Qed.

Lemma volume_rescaling_witness :
  exists p block,
    get_properties no_window (Some full_dump) = Return p
    /\ first_match BLOCK_REGEX_PATTERN (audio_output_of full_dump) = Some block
    /\ device p = Some "speaker"%string
    /\ block = ((":" ++ nl ++ "   Muted: false" ++ nl ++ "   Current: 2 (")
                ++ ("speaker" ++ "): ") ++ "8"
                ++ (", 4 (headset): 15" ++ nl ++ "   Devices: speaker" ++ nl))%string
    /\ (0 <= Str.digits_value 0 "8" <= 1000)%Z
    /\ volume p = Some (spec_volume (Str.digits_value 0 "8")).
Proof.
eexists. eexists. split; [reflexivity |]. split; [reflexivity |].
split; [reflexivity |]. split; [reflexivity |].
assert (Hr : (0 <= Str.digits_value 0 "8" <= 1000)%Z)
  by (vm_compute; split; discriminate).
split; [exact Hr |].
exact (proj1 (proj2 (proj2 volume_rescaling))
             no_window full_dump _ _ "speaker"
             (":" ++ nl ++ "   Muted: false" ++ nl ++ "   Current: 2 (")%string
             "8" (", 4 (headset): 15" ++ nl ++ "   Devices: speaker" ++ nl)%string
             eq_refl ltac:(discriminate) eq_refl eq_refl eq_refl eq_refl
             ltac:(discriminate) eq_refl eq_refl Hr).
Defined.

(** ** The audio fields that the stream block does not give *)

(** C7, as stated, fails.  On [muted_true_at_end_dump] the stream block is
    [": Muted: true"]: the marker is there with the token ["true"], and the
    muted flag is unset, not true.  On [blank_device_dump] the device line
    names [hdmi] and the block has no volume line for it: the device is
    read as the empty string and the volume is set, from the line of the
    speaker. *)
Lemma absent_audio_fields_counterexample :
  (exists p,
      get_properties no_window (Some muted_true_at_end_dump) = Return p
      /\ first_match BLOCK_REGEX_PATTERN (audio_output_of muted_true_at_end_dump)
         = Some (": " ++ "Muted: " ++ "true")%string
      /\ muted p = None)
  /\ (exists p block,
         get_properties no_window (Some blank_device_dump) = Return p
         /\ first_match BLOCK_REGEX_PATTERN (audio_output_of blank_device_dump)
            = Some block
         /\ block = (":" ++ nl ++ "   Current: 2 (speaker): 8" ++ nl
                     ++ "   Devices:  hdmi" ++ nl)%string
         /\ Str.contains "hdmi): " block = false
         /\ device p = Some ""%string
         /\ volume p = Some (volume_of "8")).
Proof.
split.
- eexists. split; [reflexivity |]. split; reflexivity.
- eexists. eexists. split; [reflexivity |]. split; [reflexivity |].
  split; [reflexivity |]. split; [reflexivity |]. split; reflexivity.
Qed.

(** C7, amended: once the decoder has read a stream block, a block without
    the text ["Devices: "] leaves the device and the volume unset; with a
    device [d] read, a block without the text [d): ] leaves the volume
    unset, and a volume is only ever set from a run of digits that follows
    [d): ] in the block; a block without the text ["Muted: "] leaves the
    muted flag unset; when the first ["Muted: "] of the block is followed
    by a run of word characters that a character which is no word
    character ends, the flag is true exactly when the run is ["true"]; and
    a muted flag is only ever set from such a token of the block. *)
Theorem absent_audio_fields_are_unset
        (ws : string -> option app_dict) (output : string) (p : properties)
        (block : string) :
  get_properties ws (Some output) = Return p ->
  audio_state p <> None ->
  first_match BLOCK_REGEX_PATTERN (audio_output_of output) = Some block ->
  (Str.contains "Devices: " block = false ->
   device p = None /\ volume p = None)
  /\ (forall d,
         device p = Some d ->
         Str.contains (d ++ "): ") block = false ->
         volume p = None)
  /\ (forall v,
         volume p = Some v ->
         exists d pre raw rest,
           device p = Some d
           /\ block = (pre ++ (d ++ "): ") ++ raw ++ rest)%string
           /\ raw <> ""%string
           /\ Str.all_chars Str.is_digit raw = true
           /\ v = volume_of raw)
  /\ (Str.contains "Muted: " block = false -> muted p = None)
  /\ (forall pre g c post,
         block = (pre ++ "Muted: " ++ g ++ String c post)%string ->
         starts_before "Muted: " pre = false ->
         Str.all_chars Str.is_word g = true ->
         Str.is_word c = false ->
         muted p = Some (String.eqb g "true"))
  /\ (forall b,
         muted p = Some b ->
         exists pre g c post,
           block = (pre ++ "Muted: " ++ g ++ String c post)%string
           /\ Str.all_chars Str.is_word g = true
           /\ Str.is_word c = false
           /\ b = String.eqb g "true").
Proof.
intros H Ha Hblock.
destruct (audio_state p) as [a |] eqn:E; [clear Ha | now elim Ha].
destruct (get_properties_audio ws _ _ _ H E) as [_ [_ Hb]].
rewrite Hblock in Hb. destruct Hb as [Hd [Hm Hv]].
split; [| split; [| split; [| split; [| split]]]].
- intros Hc. rewrite Hd, Hv. unfold block_volume, block_device.
  unfold DEVICE_REGEX_PATTERN.
  now rewrite (first_match_lit_absent _ _ _ Hc).
- intros d Hdev Hc. rewrite Hv. unfold block_volume. rewrite <- Hd, Hdev.
  rewrite volume_pattern_lit.
  now rewrite (first_match_lit_absent _ _ _ Hc).
- intros v Hvol. rewrite Hv in Hvol. unfold block_volume in Hvol.
  rewrite <- Hd in Hvol.
  destruct (device p) as [d |]; [| discriminate].
  destruct (first_match (Re.lit d ++ VOLUME_REGEX_PATTERN) block)
    as [raw |] eqn:Er; [| discriminate].
  cbn [option_map] in Hvol. apply some_inj in Hvol. subst v.
  destruct (volume_group_digits _ _ _ Er) as [Hne Hdig].
  destruct (volume_match_text _ _ _ Er) as [pre [rest Hshape]].
  exists d, pre, raw, rest. now repeat split.
- intros Hc. rewrite Hm. unfold block_muted, MUTED_REGEX_PATTERN.
  now rewrite (first_match_lit_absent _ _ _ Hc).
- intros pre g c post Hshape Hfirst Hg Hc. rewrite Hm.
  unfold block_muted, MUTED_REGEX_PATTERN.
  now rewrite (marker_token _ _ _ _ _ _ Hshape Hfirst Hg Hc).
- intros b Hmuted. rewrite Hm in Hmuted. unfold block_muted in Hmuted.
  destruct (first_match MUTED_REGEX_PATTERN block) as [g |] eqn:Eg;
    [| discriminate].
  cbn [option_map] in Hmuted. apply some_inj in Hmuted. subst b.
  destruct (marker_token_sound "Muted: " block g Eg)
    as [Hg [pre [c [post [Hshape Hc]]]]].
  exists pre, g, c, post. now repeat split.
Qed.

Lemma absent_audio_fields_are_unset_witness :
  exists p block,
    get_properties no_window (Some muted_only_dump) = Return p
    /\ audio_state p <> None
    /\ first_match BLOCK_REGEX_PATTERN (audio_output_of muted_only_dump)
       = Some block
    /\ block = ((":" ++ nl ++ "   ") ++ "Muted: " ++ "true"
                ++ String "010" "")%string
    /\ Str.contains "Devices: " block = false
    /\ (device p = None /\ volume p = None)
    /\ muted p = Some true.
Proof.
eexists. eexists.
split; [reflexivity |]. split; [discriminate |]. split; [reflexivity |].
split; [reflexivity |]. split; [reflexivity |].
pose proof (absent_audio_fields_are_unset no_window muted_only_dump _ _
              eq_refl ltac:(discriminate) eq_refl)
  as [Hdev [_ [_ [_ [Hmuted _]]]]].
split; [exact (Hdev eq_refl) |].
exact (Hmuted (":" ++ nl ++ "   ")%string "true"%string "010"%char ""%string
              eq_refl eq_refl eq_refl eq_refl).
Defined.
